(** * CloudStack cloud provider: instances and zones

    A shallow embedding of [cloudstack.go] and of the instances file of the
    provider (package [cloudstack]), and the properties of its adapter
    object [CSCloud].

    Go strings are byte strings ([string]); a Go [int] that only counts
    matches is a [Z]; a Go [error] is a value of [error], [nil] being
    [None] of [option error].  Methods with a pointer receiver read and
    write the adapter, call the CloudStack client and the operating system
    and write log lines: they are computations of the monad [M] below. *)

From Stdlib Require Import String Ascii List ZArith Bool Lia.
Import ListNotations.
Open Scope string_scope.

(* ================================================================== *)
(** ** Errors *)

Module errors.

(** [cloudprovider.InstanceNotFound] and [cloudprovider.NotImplemented]
    are sentinel values compared by identity; every other error is made
    by [errors.New] or [fmt.Errorf] and carries its text. *)
Inductive error : Type :=
| InstanceNotFound
| NotImplemented
| New (text : string).

Definition Error (e : error) : string :=
  match e with
  | InstanceNotFound => "instance not found"
  | NotImplemented => "unimplemented"
  | New text => text
  end.

(** [fmt.Errorf(prefix + "%v", arg)] for a string argument. *)
Definition Errorf (prefix arg : string) : error := New (prefix ++ arg).

End errors.
Import errors.

(* ================================================================== *)
(** ** The regular expressions of package [regexp], as far as the
       pattern of the provider needs them

    The matcher reads the string byte by byte.  Package [regexp] reads
    it rune by rune; the bracket expressions of the provider's pattern
    are negated sets of ASCII characters, which take a rune of several
    bytes exactly when they take each of its bytes, so the text that is
    left after the replacement is the same. *)

Module regexp.

Inductive ClassItem : Type :=
| Lit (c : ascii)
| Range (lo hi : ascii).

(** The syntax: a bracket expression (negated or not), concatenation,
    a capture group, the greedy [?] and the greedy [*]. *)
Inductive Regexp : Type :=
| Class (negated : bool) (items : list ClassItem)
| Concat (r1 r2 : Regexp)
| Group (r : Regexp)
| Quest (r : Regexp)
| Star (r : Regexp).

Definition item_has (c : ascii) (i : ClassItem) : bool :=
  match i with
  | Lit d => Ascii.eqb c d
  | Range lo hi => (nat_of_ascii lo <=? nat_of_ascii c)%nat
                   && (nat_of_ascii c <=? nat_of_ascii hi)%nat
  end.

Definition class_has (negated : bool) (items : list ClassItem) (c : ascii) : bool :=
  xorb negated (existsb (item_has c) items).

(** Backtracking matcher in continuation style: [run r s k] matches [r]
    at the start of [s] and hands the rest of the input to [k]; the
    first success in the order a backtracking engine tries the
    alternatives is the answer (leftmost-first, as package [regexp]
    chooses among the matches that start at one place).  An iteration
    of [*] that consumes nothing is not repeated. *)
Fixpoint run (r : Regexp) (s : string) (k : string -> option string)
  : option string :=
  match r with
  | Class negated items =>
      match s with
      | EmptyString => None
      | String c rest => if class_has negated items c then k rest else None
      end
  | Concat r1 r2 => run r1 s (fun rest => run r2 rest k)
  | Group r1 => run r1 s k
  | Quest r1 =>
      match run r1 s k with
      | Some out => Some out
      | None => k s
      end
  | Star r1 =>
      (fix loop (fuel : nat) (s : string) : option string :=
         match fuel with
         | O => k s
         | S fuel' =>
             match run r1 s (fun rest =>
                      if (String.length rest <? String.length s)%nat
                      then loop fuel' rest else None) with
             | Some out => Some out
             | None => k s
             end
         end) (String.length s) s
  end.

(** The pattern text of a syntax tree. *)
Definition showItem (i : ClassItem) : string :=
  match i with
  | Lit c => String c EmptyString
  | Range lo hi => String lo (String "-" (String hi EmptyString))
  end.

Fixpoint show (r : Regexp) : string :=
  match r with
  | Class negated items =>
      "[" ++ (if negated then "^" else "") ++ String.concat "" (map showItem items) ++ "]"
  | Concat r1 r2 => show r1 ++ show r2
  | Group r1 => "(" ++ show r1 ++ ")"
  | Quest r1 => show r1 ++ "?"
  | Star r1 => show r1 ++ "*"
  end.

(** Width of the match of [r] that starts at the head of [s], if any. *)
Definition matchWidth (r : Regexp) (s : string) : option nat :=
  match run r s Some with
  | Some rest => Some (String.length s - String.length rest)%nat
  | None => None
  end.

(** [re.ReplaceAllString(src, "")]: the matches are looked for from left
    to right, each one starting at the first place after the previous
    match where the pattern matches; matched text is dropped, the rest is
    copied.  [skip] counts the characters of the current match that are
    still to be dropped.  An empty match replaces nothing and the scan
    moves on by one character. *)
Fixpoint dropMatches (r : Regexp) (skip : nat) (src : string) : string :=
  match src with
  | EmptyString => EmptyString
  | String c rest =>
      match skip with
      | S n => dropMatches r n rest
      | O =>
          match matchWidth r src with
          | Some (S n) => dropMatches r n rest
          | _ => String c (dropMatches r 0 rest)
          end
      end
  end.

Definition ReplaceAllString_empty (r : Regexp) (src : string) : string :=
  dropMatches r 0 src.

End regexp.
Import regexp.

(** [[A-Za-z0-9]] *)
Definition alnum_items : list ClassItem :=
  [Range "A" "Z"; Range "a" "z"; Range "0" "9"].

(** [[-A-Za-z0-9_.]] *)
Definition label_items : list ClassItem :=
  [Lit "-"; Range "A" "Z"; Range "a" "z"; Range "0" "9"; Lit "_"; Lit "."].

(** The pattern compiled by [regexp.MustCompile], as a syntax tree;
    [labelInvalidCharsRegex_text] checks it against the text of the
    pattern in the source. *)
Definition labelInvalidCharsRegex : Regexp :=
  Concat
    (Quest (Group (Concat (Class true alnum_items)
                          (Star (Class true label_items)))))
    (Class true alnum_items).

Definition sanitize (name : string) : string :=
  ReplaceAllString_empty labelInvalidCharsRegex name.

Definition isAlnum (c : ascii) : bool := class_has false alnum_items c.

Fixpoint keepAlnum (s : string) : string :=
  match s with
  | EmptyString => EmptyString
  | String c rest =>
      if isAlnum c then String c (keepAlnum rest) else keepAlnum rest
  end.

Definition notAlnum (c : ascii) : bool := negb (isAlnum c).

(** Every character of [s] passes the test [ok]. *)
Fixpoint allChars (ok : ascii -> bool) (s : string) : bool :=
  match s with
  | EmptyString => true
  | String c rest => ok c && allChars ok rest
  end.

(** Every bracket expression of the pattern takes only [ok] characters. *)
Fixpoint takesOnly (ok : ascii -> bool) (r : Regexp) : Prop :=
  match r with
  | Class negated items => forall c, class_has negated items c = true -> ok c = true
  | Concat r1 r2 => takesOnly ok r1 /\ takesOnly ok r2
  | Group r1 | Quest r1 | Star r1 => takesOnly ok r1
  end.

(** The two parts of the pattern: the optional group, and the single
    character that ends every match. *)
Definition optionalRun : Regexp :=
  Group (Concat (Class true alnum_items) (Star (Class true label_items))).

Definition lastChar (rest : string) : option string :=
  run (Class true alnum_items) rest Some.

(* ================================================================== *)
(** ** Data of the CloudStack client library and of the orchestrator *)

Module cloudstack.

Record Nic : Type := { Ipaddress : string }.

(** The fields of [cloudstack.VirtualMachine] the provider reads. *)
Record VirtualMachine : Type := {
  Id : string;
  Name : string;
  Hostname : string;
  Publicip : string;
  Zonename : string;
  Serviceofferingname : string;
  Nic_ : list Nic
}.

Record CloudStackClient : Type := {
  baseURL : string;
  apiKey : string;
  secret : string;
  verifyssl : bool;
  async : bool
}.

Definition NewAsyncClient (apiurl apikey secret : string) (verifyssl : bool)
  : CloudStackClient :=
  {| baseURL := apiurl; apiKey := apikey; secret := secret;
     verifyssl := verifyssl; async := true |}.

(** An option handed to a lookup. *)
Inductive OptionFunc : Type :=
| WithProject (project : string).

(** What [GetVirtualMachineByName] and [GetVirtualMachineByID] give
    back, [(instance, count, err)]: an instance and no error, or no
    instance, the number of matches and an error. *)
Inductive Lookup : Type :=
| Found (instance : VirtualMachine) (count : Z)
| Failed (count : Z) (err : error).

End cloudstack.
Import cloudstack.

Module corev1.

Inductive NodeAddressType : Type :=
| NodeHostName | NodeInternalIP | NodeExternalIP
| NodeInternalDNS | NodeExternalDNS.

Record NodeAddress : Type := { Type_ : NodeAddressType; Address : string }.

(** Of a node object only the name is read. *)
Record Node : Type := { Name : string }.

End corev1.

Module cloudprovider.

Record Zone : Type := { FailureDomain : string; Region : string }.

Record InstanceMetadata : Type := {
  ProviderID : string;
  InstanceType : string;
  NodeAddresses : list corev1.NodeAddress;
  Zone_ : string;
  Region_ : string
}.

End cloudprovider.

Definition NodeName : Type := string.

(** ProviderName is the name of this cloud provider. *)
Definition ProviderName : string := "external-cloudstack".

Record GlobalConfig : Type := {
  APIURL : string;
  APIKey : string;
  SecretKey : string;
  SSLNoVerify : bool;
  ProjectID : string;
  Zone : string
}.

Record CSConfig : Type := { Global : GlobalConfig }.

(** CSCloud; a [nil] client is [None]. *)
Record CSCloud : Type := {
  client : option CloudStackClient;
  projectID : string;
  zone : string
}.

Definition with_zone (cs : CSCloud) (z : string) : CSCloud :=
  {| client := client cs; projectID := projectID cs; zone := z |}.

Definition with_client (cs : CSCloud) (c : CloudStackClient) : CSCloud :=
  {| client := Some c; projectID := projectID cs; zone := zone cs |}.

Definition nonEmpty (s : string) : bool := negb (s =? "").

(** newCSCloud creates a new instance of CSCloud. *)
Definition newCSCloud (cfg : CSConfig) : option CSCloud * option error :=
  let cs := {| client := None;
               projectID := ProjectID (Global cfg);
               zone := Zone (Global cfg) |} in
  let cs :=
    if nonEmpty (APIURL (Global cfg)) && nonEmpty (APIKey (Global cfg))
       && nonEmpty (SecretKey (Global cfg))
    then with_client cs (NewAsyncClient (APIURL (Global cfg)) (APIKey (Global cfg))
                           (SecretKey (Global cfg)) (negb (SSLNoVerify (Global cfg))))
    else cs in
  match client cs with
  | None => (None, Some (New "no cloud provider config given"))
  | Some _ => (Some cs, None)
  end.

(* ================================================================== *)
(** ** What a method does besides returning *)

Inductive Severity : Type :=
| InfoV (verbosity : Z)
| Warning.

Inductive Event : Type :=
| EvHostname
| EvByName (name : string) (opts : list OptionFunc)
| EvByID (id : string) (opts : list OptionFunc)
| EvLog (sev : Severity) (msg : string).

Definition isLookup (e : Event) : bool :=
  match e with
  | EvByName _ _ | EvByID _ _ => true
  | _ => false
  end.

(** The remote lookups among the events, in order. *)
Definition lookups (evs : list Event) : list Event := filter isLookup evs.

(** The world outside the adapter: the local operating system and the
    remote platform behind a client.  Answers may change from one call to
    the next, so every call takes the world and gives the next one. *)
Record Platform (World : Type) : Type := {
  hostname : World -> (string * option error) * World;
  vmByName : CloudStackClient -> string -> list OptionFunc -> World -> Lookup * World;
  vmByID : CloudStackClient -> string -> list OptionFunc -> World -> Lookup * World
}.
Arguments hostname {World}.
Arguments vmByName {World}.
Arguments vmByID {World}.

(** Outcome of a method call: a run-time panic (a [nil] client is
    dereferenced), or a returned value with the adapter and the world
    after the call and the events of the call in order. *)
Inductive Outcome (World A : Type) : Type :=
| Panic
| Done (a : A) (cs : CSCloud) (w : World) (evs : list Event).
Arguments Panic {World A}.
Arguments Done {World A}.

Definition M (World A : Type) : Type := CSCloud -> World -> Outcome World A.

Definition ret {World A} (a : A) : M World A := fun cs w => Done a cs w [].

Definition bind {World A B} (m : M World A) (f : A -> M World B) : M World B :=
  fun cs w =>
    match m cs w with
    | Panic => Panic
    | Done a cs1 w1 evs1 =>
        match f a cs1 w1 with
        | Panic => Panic
        | Done b cs2 w2 evs2 => Done b cs2 w2 (evs1 ++ evs2)
        end
    end.

Notation "x <- m ;; k" := (bind m (fun x => k))
  (at level 61, m at next level, right associativity).
Notation "m ;;; k" := (bind m (fun _ => k))
  (at level 61, right associativity).

(** The value a call returned, if it returned. *)
Definition returned {World A} (o : Outcome World A) : option A :=
  match o with Panic => None | Done a _ _ _ => Some a end.

Definition events {World A} (o : Outcome World A) : list Event :=
  match o with Panic => [] | Done _ _ _ evs => evs end.

Definition adapterAfter {World A} (o : Outcome World A) : option CSCloud :=
  match o with Panic => None | Done _ cs _ _ => Some cs end.

(* ================================================================== *)
(** ** The methods of [CSCloud] *)

Section Methods.

Context {World : Type} (P : Platform World).

Local Abbreviation M := (M World).

(** Reading the receiver, writing its [zone] field. *)
Definition self : M CSCloud := fun cs w => Done cs cs w [].

Definition setZone (z : string) : M unit :=
  fun cs w => Done tt (with_zone cs z) w [].

Definition klog (sev : Severity) (msg : string) : M unit :=
  fun cs w => Done tt cs w [EvLog sev msg].

(** [os.Hostname()] *)
Definition os_Hostname : M (string * option error) :=
  fun cs w => let (r, w') := hostname P w in Done r cs w' [EvHostname].

(** [cs.client.VirtualMachine.GetVirtualMachineByName(name, opts...)] *)
Definition GetVirtualMachineByName (name : string) (opts : list OptionFunc)
  : M Lookup :=
  fun cs w =>
    match client cs with
    | None => Panic
    | Some c =>
        let (r, w') := vmByName P c name opts w in
        Done r cs w' [EvByName name opts]
    end.

(** [cs.client.VirtualMachine.GetVirtualMachineByID(id, opts...)] *)
Definition GetVirtualMachineByID (id : string) (opts : list OptionFunc)
  : M Lookup :=
  fun cs w =>
    match client cs with
    | None => Panic
    | Some c =>
        let (r, w') := vmByID P c id opts w in
        Done r cs w' [EvByID id opts]
    end.

(* ---------------------------------------------------------------- *)
(** *** cloudstack.go *)

(** LoadBalancer returns an implementation of LoadBalancer for CloudStack. *)
Definition LoadBalancer : M (option CSCloud * bool) :=
  cs <- self ;;
  match client cs with
  | None => ret (None, false)
  | Some _ => ret (Some cs, true)
  end.

(** Instances returns an implementation of Instances for CloudStack. *)
Definition Instances : M (option CSCloud * bool) :=
  cs <- self ;;
  match client cs with
  | None => ret (None, false)
  | Some _ => ret (Some cs, true)
  end.

Definition InstancesV2 : M (option CSCloud * bool) :=
  cs <- self ;;
  match client cs with
  | None => ret (None, false)
  | Some _ => ret (Some cs, true)
  end.

(** Zones returns an implementation of Zones for CloudStack. *)
Definition Zones : M (option CSCloud * bool) :=
  cs <- self ;;
  match client cs with
  | None => ret (None, false)
  | Some _ => ret (Some cs, true)
  end.

(** Clusters returns an implementation of Clusters for CloudStack. *)
Definition Clusters : M (option CSCloud * bool) :=
  cs <- self ;;
  match client cs with
  | None => ret (None, false)
  | Some _ =>
      klog Warning "This cloud provider doesn't support clusters" ;;;
      ret (None, false)
  end.

(** Routes returns an implementation of Routes for CloudStack. *)
Definition Routes : M (option CSCloud * bool) :=
  cs <- self ;;
  match client cs with
  | None => ret (None, false)
  | Some _ =>
      klog Warning "This cloud provider doesn't support routes" ;;;
      ret (None, false)
  end.

(** ProviderName returns the cloud provider ID. *)
Definition CSCloud_ProviderName : M string := ret ProviderName.

(** HasClusterID returns true if the cluster has a clusterID *)
Definition HasClusterID : M bool := ret true.

Definition Initialize : M unit := ret tt.

Definition emptyZone : cloudprovider.Zone :=
  {| cloudprovider.FailureDomain := ""; cloudprovider.Region := "" |}.

(** GetZone returns the Zone containing the region that the program is
    running in.  The block under [if cs.zone == ""] either returns from
    the method ([Some]) or falls through ([None]). *)
Definition GetZone : M (cloudprovider.Zone * option error) :=
  let zone0 := emptyZone in
  cs <- self ;;
  early <-
    (if zone cs =? "" then
       h <- os_Hostname ;;
       match h with
       | (_, Some err) =>
           ret (Some (zone0,
                      Some (Errorf "failed to get hostname for retrieving the zone: "
                                   (Error err))))
       | (hostname, None) =>
           r <- GetVirtualMachineByName hostname [] ;;
           match r with
           | Failed count err =>
               if (count =? 0)%Z then
                 ret (Some (zone0,
                            Some (Errorf "could not find instance for retrieving the zone: "
                                         (Error err))))
               else
                 ret (Some (zone0,
                            Some (Errorf "error getting instance for retrieving the zone: "
                                         (Error err))))
           | Found instance _ =>
               setZone (Zonename instance) ;;;
               ret None
           end
       end
     else ret None) ;;
  match early with
  | Some result => ret result
  | None =>
      cs <- self ;;
      klog (InfoV 2) ("Current zone is " ++ zone cs) ;;;
      ret ({| cloudprovider.FailureDomain := zone cs;
              cloudprovider.Region := zone cs |}, None)
  end.

(** GetZoneByProviderID returns the Zone, found by using the provider ID. *)
Definition GetZoneByProviderID (providerID : string)
  : M (cloudprovider.Zone * option error) :=
  let zone0 := emptyZone in
  cs <- self ;;
  r <- GetVirtualMachineByID providerID [WithProject (projectID cs)] ;;
  match r with
  | Failed count err =>
      if (count =? 0)%Z then
        ret (zone0, Some (Errorf "could not find node by ID: " providerID))
      else
        ret (zone0, Some (Errorf "error retrieving zone: " (Error err)))
  | Found instance _ =>
      cs <- self ;;
      klog (InfoV 2) ("Current zone is " ++ zone cs) ;;;
      ret ({| cloudprovider.FailureDomain := Zonename instance;
              cloudprovider.Region := Zonename instance |}, None)
  end.

(** GetZoneByNodeName returns the Zone, found by using the node name. *)
Definition GetZoneByNodeName (nodeName : NodeName)
  : M (cloudprovider.Zone * option error) :=
  let zone0 := emptyZone in
  cs <- self ;;
  r <- GetVirtualMachineByName nodeName [WithProject (projectID cs)] ;;
  match r with
  | Failed count err =>
      if (count =? 0)%Z then
        ret (zone0, Some (Errorf "could not find node: " nodeName))
      else
        ret (zone0, Some (Errorf "error retrieving zone: " (Error err)))
  | Found instance _ =>
      cs <- self ;;
      klog (InfoV 2) ("Current zone is " ++ zone cs) ;;;
      ret ({| cloudprovider.FailureDomain := Zonename instance;
              cloudprovider.Region := Zonename instance |}, None)
  end.

(* ---------------------------------------------------------------- *)
(** *** The instances file *)

Definition nodeAddresses (instance : VirtualMachine)
  : M (list corev1.NodeAddress * option error) :=
  match Nic_ instance with
  | [] => ret ([], Some (New "instance does not have an internal IP"))
  | nic0 :: _ =>
      let addresses :=
        [ {| corev1.Type_ := corev1.NodeInternalIP;
             corev1.Address := Ipaddress nic0 |} ] in
      let addresses :=
        if nonEmpty (Hostname instance) then
          (addresses ++ [ {| corev1.Type_ := corev1.NodeHostName;
                             corev1.Address := Hostname instance |} ])%list
        else addresses in
      addresses <-
        (if nonEmpty (Publicip instance) then
           ret (addresses ++ [ {| corev1.Type_ := corev1.NodeExternalIP;
                                  corev1.Address := Publicip instance |} ])%list
         else
           (* Since there is no sane way to determine the external IP if
              the host isn't using static NAT, we will just fire a log
              message and omit the external IP. *)
           klog (InfoV 4)
                ("Could not determine the public IP of host "
                 ++ cloudstack.Name instance ++ " (" ++ Id instance ++ ")") ;;;
           ret addresses) ;;
      ret (addresses, None)
  end.

(** NodeAddresses returns the addresses of the specified instance. *)
Definition NodeAddresses (name : NodeName)
  : M (list corev1.NodeAddress * option error) :=
  cs <- self ;;
  r <- GetVirtualMachineByName name [WithProject (projectID cs)] ;;
  match r with
  | Failed count err =>
      if (count =? 0)%Z then ret ([], Some InstanceNotFound)
      else ret ([], Some (Errorf "error retrieving node addresses: " (Error err)))
  | Found instance _ => nodeAddresses instance
  end.

(** NodeAddressesByProviderID returns the addresses of the specified instance. *)
Definition NodeAddressesByProviderID (providerID : string)
  : M (list corev1.NodeAddress * option error) :=
  cs <- self ;;
  r <- GetVirtualMachineByID providerID [WithProject (projectID cs)] ;;
  match r with
  | Failed count err =>
      if (count =? 0)%Z then ret ([], Some InstanceNotFound)
      else ret ([], Some (Errorf "error retrieving node addresses: " (Error err)))
  | Found instance _ => nodeAddresses instance
  end.

(** InstanceID returns the cloud provider ID of the specified instance. *)
Definition InstanceID (name : NodeName) : M (string * option error) :=
  cs <- self ;;
  r <- GetVirtualMachineByName name [WithProject (projectID cs)] ;;
  match r with
  | Failed count err =>
      if (count =? 0)%Z then ret ("", Some InstanceNotFound)
      else ret ("", Some (Errorf "error retrieving instance ID: " (Error err)))
  | Found instance _ => ret (Id instance, None)
  end.

(** InstanceType returns the type of the specified instance. *)
Definition InstanceType (name : NodeName) : M (string * option error) :=
  cs <- self ;;
  r <- GetVirtualMachineByName name [WithProject (projectID cs)] ;;
  match r with
  | Failed count err =>
      if (count =? 0)%Z then ret ("", Some InstanceNotFound)
      else ret ("", Some (Errorf "error retrieving instance type: " (Error err)))
  | Found instance _ =>
      ret (ReplaceAllString_empty labelInvalidCharsRegex
             (Serviceofferingname instance), None)
  end.

(** InstanceTypeByProviderID returns the type of the specified instance. *)
Definition InstanceTypeByProviderID (providerID : string)
  : M (string * option error) :=
  cs <- self ;;
  r <- GetVirtualMachineByID providerID [WithProject (projectID cs)] ;;
  match r with
  | Failed count err =>
      if (count =? 0)%Z then ret ("", Some InstanceNotFound)
      else ret ("", Some (Errorf "error retrieving instance type: " (Error err)))
  | Found instance _ =>
      ret (ReplaceAllString_empty labelInvalidCharsRegex
             (Serviceofferingname instance), None)
  end.

(** AddSSHKeyToAllInstances is currently not implemented. *)
Definition AddSSHKeyToAllInstances (user : string) (keyData : string)
  : M (option error) :=
  ret (Some NotImplemented).

(** CurrentNodeName returns the name of the node we are currently running on. *)
Definition CurrentNodeName (hostname : string) : M (NodeName * option error) :=
  ret (hostname, None).

(** InstanceExistsByProviderID returns if the instance still exists. *)
Definition InstanceExistsByProviderID (providerID : string)
  : M (bool * option error) :=
  cs <- self ;;
  r <- GetVirtualMachineByID providerID [WithProject (projectID cs)] ;;
  match r with
  | Failed count err =>
      if (count =? 0)%Z then ret (false, None)
      else ret (false, Some (Errorf "error retrieving instance: " (Error err)))
  | Found _ _ => ret (true, None)
  end.

(** InstanceShutdownByProviderID returns true if the instance is in safe
    state to detach volumes *)
Definition InstanceShutdownByProviderID (providerID : string)
  : M (bool * option error) :=
  ret (false, Some NotImplemented).

Definition InstanceExists (node : corev1.Node) : M (bool * option error) :=
  let nodeName : NodeName := corev1.Name node in
  r <- InstanceID nodeName ;;
  match r with
  | (_, Some err) => ret (false, Some err)
  | (providerID, None) => InstanceExistsByProviderID providerID
  end.

Definition InstanceShutdown (node : corev1.Node) : M (bool * option error) :=
  ret (false, Some NotImplemented).

Definition InstanceMetadata (node : corev1.Node)
  : M (option cloudprovider.InstanceMetadata * option error) :=
  t <- InstanceType (corev1.Name node) ;;
  match t with
  | (_, Some err) => ret (None, Some err)
  | (instanceType, None) =>
      a <- NodeAddresses (corev1.Name node) ;;
      match a with
      | (_, Some err) => ret (None, Some err)
      | (addresses, None) =>
          z <- GetZone ;;
          match z with
          | (_, Some err) => ret (None, Some err)
          | (zone1, None) =>
              providerID <- CSCloud_ProviderName ;;
              cs <- self ;;
              ret (Some {| cloudprovider.ProviderID := providerID;
                           cloudprovider.InstanceType := instanceType;
                           cloudprovider.NodeAddresses := addresses;
                           cloudprovider.Zone_ := zone cs;
                           cloudprovider.Region_ := cloudprovider.Region zone1 |},
                   None)
          end
      end
  end.

End Methods.

(** The entries of an address list, as the orchestrator reads them. *)
Definition addr (t : corev1.NodeAddressType) (a : string) : corev1.NodeAddress :=
  {| corev1.Type_ := t; corev1.Address := a |}.

(** The address list of an instance whose first interface is [nic0]:
    internal IP, then the host name if there is one, then the public IP
    if there is one. *)
Definition addressList (nic0 : Nic) (vm : VirtualMachine) : list corev1.NodeAddress :=
  (addr corev1.NodeInternalIP (Ipaddress nic0)
   :: (if Hostname vm =? "" then [] else [addr corev1.NodeHostName (Hostname vm)])
   ++ (if Publicip vm =? "" then [] else [addr corev1.NodeExternalIP (Publicip vm)]))%list.

(* ================================================================== *)
(** ** Every method as one operation of the adapter *)

Inductive Operation : Type :=
| OpInitialize
| OpLoadBalancer | OpInstances | OpInstancesV2 | OpZones | OpClusters | OpRoutes
| OpProviderName | OpHasClusterID
| OpGetZone
| OpGetZoneByProviderID (providerID : string)
| OpGetZoneByNodeName (nodeName : NodeName)
| OpNodeAddresses (name : NodeName)
| OpNodeAddressesByProviderID (providerID : string)
| OpInstanceID (name : NodeName)
| OpInstanceType (name : NodeName)
| OpInstanceTypeByProviderID (providerID : string)
| OpAddSSHKeyToAllInstances (user keyData : string)
| OpCurrentNodeName (hostname : string)
| OpInstanceExistsByProviderID (providerID : string)
| OpInstanceShutdownByProviderID (providerID : string)
| OpInstanceExists (node : corev1.Node)
| OpInstanceShutdown (node : corev1.Node)
| OpInstanceMetadata (node : corev1.Node).

Definition forget {World A} (m : M World A) : M World unit := m ;;; ret tt.

(** The call of an operation, its result dropped. *)
Definition perform {World} (P : Platform World) (op : Operation) : M World unit :=
  match op with
  | OpInitialize => Initialize
  | OpLoadBalancer => forget LoadBalancer
  | OpInstances => forget Instances
  | OpInstancesV2 => forget InstancesV2
  | OpZones => forget Zones
  | OpClusters => forget Clusters
  | OpRoutes => forget Routes
  | OpProviderName => forget CSCloud_ProviderName
  | OpHasClusterID => forget HasClusterID
  | OpGetZone => forget (GetZone P)
  | OpGetZoneByProviderID providerID => forget (GetZoneByProviderID P providerID)
  | OpGetZoneByNodeName nodeName => forget (GetZoneByNodeName P nodeName)
  | OpNodeAddresses name => forget (NodeAddresses P name)
  | OpNodeAddressesByProviderID providerID => forget (NodeAddressesByProviderID P providerID)
  | OpInstanceID name => forget (InstanceID P name)
  | OpInstanceType name => forget (InstanceType P name)
  | OpInstanceTypeByProviderID providerID => forget (InstanceTypeByProviderID P providerID)
  | OpAddSSHKeyToAllInstances user keyData => forget (AddSSHKeyToAllInstances user keyData)
  | OpCurrentNodeName hostname => forget (CurrentNodeName hostname)
  | OpInstanceExistsByProviderID providerID => forget (InstanceExistsByProviderID P providerID)
  | OpInstanceShutdownByProviderID providerID => forget (InstanceShutdownByProviderID providerID)
  | OpInstanceExists node => forget (InstanceExists P node)
  | OpInstanceShutdown node => forget (InstanceShutdown node)
  | OpInstanceMetadata node => forget (InstanceMetadata P node)
  end.

(** The options of a lookup. *)
Definition optsOf (e : Event) : list OptionFunc :=
  match e with
  | EvByName _ opts | EvByID _ opts => opts
  | _ => []
  end.

(* ================================================================== *)
(** ** Concrete platforms, for running the methods *)

Module Sample.

(** A platform that knows the instances of a list: a lookup finds the
    first instance of that name (or identifier), or reports zero
    matches; the local host is called [host]. *)
Fixpoint findBy (key : VirtualMachine -> string) (k : string)
         (vms : list VirtualMachine) : Lookup :=
  match vms with
  | [] => Failed 0 (New ("No match found for " ++ k))
  | vm :: rest => if key vm =? k then Found vm 1 else findBy key k rest
  end.

Definition table (host : string) (vms : list VirtualMachine) : Platform unit :=
  {| hostname := fun w => ((host, None), w);
     vmByName := fun _ name _ w => (findBy cloudstack.Name name vms, w);
     vmByID := fun _ id _ w => (findBy Id id vms, w) |}.

(** A platform whose every call fails in transport. *)
Definition unreachable : Platform unit :=
  {| hostname := fun w => (("", Some (New "hostname: not available")), w);
     vmByName := fun _ _ _ w => (Failed (-1) (New "connection refused"), w);
     vmByID := fun _ _ _ w => (Failed (-1) (New "connection refused"), w) |}.

Definition vm (id name host pub zonename offering : string) (ips : list string)
  : VirtualMachine :=
  {| Id := id; cloudstack.Name := name; Hostname := host; Publicip := pub;
     Zonename := zonename; Serviceofferingname := offering;
     Nic_ := map (fun ip => {| Ipaddress := ip |}) ips |}.

Definition ctrl : VirtualMachine :=
  vm "vm-1" "ctrl" "" "" "zoneA" "m1.small!!" ["10.0.0.5"].

Definition worker : VirtualMachine :=
  vm "vm-2" "worker-2" "node1" "203.0.113.9" "zoneB" "##gpu-large" ["10.0.0.6"].

Definition bare : VirtualMachine :=
  vm "vm-3" "bare" "" "" "" "tiny" [].

Definition site : Platform unit := table "ctrl" [ctrl; worker; bare].


Definition theClient : CloudStackClient :=
  NewAsyncClient "https://cloud.example/client/api" "key" "secret" true.

(** An adapter as [newCSCloud] makes it, with project scope [project]
    and configured zone [zonename]. *)
Definition adapter (project zonename : string) : CSCloud :=
  {| client := Some theClient; projectID := project; zone := zonename |}.

Definition nodeOf (name : string) : corev1.Node := {| corev1.Name := name |}.

End Sample.

(* ================================================================== *)
(** ** Reading the configuration and registering the provider *)

(** [&CSConfig{}] *)
Definition emptyConfig : CSConfig :=
  {| Global := {| APIURL := ""; APIKey := ""; SecretKey := "";
                  SSLNoVerify := false; ProjectID := ""; Zone := "" |} |}.

(** A value of the interface [cloudprovider.Interface]: the [nil]
    interface, or an interface value that holds a pointer to an adapter;
    the pointer held may itself be [nil] ([None]). *)
Inductive Interface : Type :=
| NilInterface
| AsInterface (cs : option CSCloud).

Section Config.

(** [io.Reader] and [gcfg.ReadInto(cfg, config)], which fills the
    settings from the stream or fails. *)
Variable Reader : Type.
Variable gcfg_ReadInto : CSConfig -> Reader -> CSConfig * option error.

(** readConfig: [(cfg, nil)] is [inl cfg], [(nil, err)] is [inr err]. *)
Definition readConfig (config : option Reader) : CSConfig + error :=
  let cfg := emptyConfig in
  match config with
  | None => inl cfg
  | Some r =>
      match gcfg_ReadInto cfg r with
      | (_, Some err) =>
          inr (Errorf "could not parse cloud provider config: " (Error err))
      | (cfg, None) => inl cfg
      end
  end.

(** The function that [init] hands to
    [cloudprovider.RegisterCloudProvider].  Its last statement returns
    the two results of [newCSCloud] as [(cloudprovider.Interface, error)]:
    the pointer, [nil] or not, becomes an interface value. *)
Definition registered (config : option Reader) : Interface * option error :=
  match readConfig config with
  | inr err => (NilInterface, Some err)
  | inl cfg => let (cs, err) := newCSCloud cfg in (AsInterface cs, err)
  end.

End Config.

(** The operations that are written without any call of the client or of
    the operating system. *)
Definition isLocal (op : Operation) : bool :=
  match op with
  | OpInitialize
  | OpLoadBalancer | OpInstances | OpInstancesV2 | OpZones | OpClusters | OpRoutes
  | OpProviderName | OpHasClusterID
  | OpAddSSHKeyToAllInstances _ _ | OpCurrentNodeName _
  | OpInstanceShutdownByProviderID _ | OpInstanceShutdown _ => true
  | _ => false
  end.

Definition isHostname (e : Event) : bool :=
  match e with EvHostname => true | _ => false end.

(** A configuration stream of the samples: it parses to the settings it
    holds, or is malformed. *)
Inductive SampleReader : Type :=
| Parses (cfg : CSConfig)
| Malformed (why : string).

Definition sampleReadInto (cfg : CSConfig) (r : SampleReader)
  : CSConfig * option error :=
  match r with
  | Parses cfg' => (cfg', None)
  | Malformed why => (cfg, Some (New why))
  end.

(** The error an instance operation makes of a failed lookup. *)
Definition instanceError (what : string) (count : Z) (err : error) : error :=
  if (count =? 0)%Z then InstanceNotFound else New (what ++ Error err).

(* ================================================================== *)
(** * Properties *)

(** ** The sanitizing pattern *)

Example labelInvalidCharsRegex_text :
  show labelInvalidCharsRegex = "([^A-Za-z0-9][^-A-Za-z0-9_.]*)?[^A-Za-z0-9]".
Proof. reflexivity. Qed.

Example sanitize_spaces :
  sanitize "Medium Instance (2 vCPU)" = "MediumInstance2vCPU".
Proof. reflexivity. Qed.

Section MatcherFacts.

Variable ok : ascii -> bool.

Lemma allChars_app (a b : string) :
  allChars ok (a ++ b) = allChars ok a && allChars ok b.
Proof.
  induction a as [|c a IH]; simpl; [reflexivity|].
  now rewrite IH, andb_assoc.
Qed.

Lemma append_assoc (a b c : string) : (a ++ b) ++ c = a ++ (b ++ c).
Proof. induction a as [|x a IH]; simpl; [reflexivity | now rewrite IH]. Qed.

(** What a successful run consumed is made of [ok] characters. *)
Lemma run_takes (r : Regexp) :
  takesOnly ok r ->
  forall s k out, run r s k = Some out ->
    exists pre rest, s = pre ++ rest /\ allChars ok pre = true /\ k rest = Some out.
Proof.
  induction r as [negated items | r1 IH1 r2 IH2 | r1 IH | r1 IH | r1 IH];
    simpl; intros Hok s k out Hrun.
  - destruct s as [|c rest]; [discriminate|].
    destruct (class_has negated items c) eqn:Hc; [|discriminate].
    exists (String c EmptyString), rest; simpl.
    rewrite (Hok c Hc); auto.
  - destruct Hok as [Hok1 Hok2].
    destruct (IH1 Hok1 _ _ _ Hrun) as (p1 & m & -> & Hp1 & Hm).
    destruct (IH2 Hok2 _ _ _ Hm) as (p2 & rest & -> & Hp2 & Hk).
    exists (p1 ++ p2), rest.
    rewrite append_assoc, allChars_app, Hp1, Hp2; auto.
  - eauto.
  - destruct (run r1 s k) eqn:E.
    + inversion Hrun; subst; eauto.
    + exists EmptyString, s; auto.
  - remember (String.length s) as fuel eqn:Hfuel; clear Hfuel.
    revert s Hrun; induction fuel as [|fuel IHf]; intros s Hrun.
    + exists EmptyString, s; auto.
    + match type of Hrun with
      | match ?x with _ => _ end = _ => destruct x eqn:E
      end.
      * inversion Hrun; subst.
        destruct (IH Hok _ _ _ E) as (p1 & m & -> & Hp1 & Hm).
        destruct (String.length m <? String.length (p1 ++ m))%nat; [|discriminate].
        destruct (IHf _ Hm) as (p2 & rest & -> & Hp2 & Hk).
        exists (p1 ++ p2), rest.
        rewrite append_assoc, allChars_app, Hp1, Hp2; auto.
      * exists EmptyString, s; auto.
Qed.

End MatcherFacts.

Lemma pattern_takes_notAlnum :
  takesOnly notAlnum
    (Group (Concat (Class true alnum_items) (Star (Class true label_items)))).
Proof.
  split; intros c; unfold notAlnum, isAlnum, class_has.
  - destruct (existsb (item_has c) alnum_items); simpl; congruence.
  - unfold alnum_items, label_items; cbn [existsb].
    destruct (item_has c (Lit "-")), (item_has c (Range "A" "Z")),
      (item_has c (Range "a" "z")), (item_has c (Range "0" "9"));
      simpl; congruence.
Qed.

Lemma length_append (a b : string) :
  String.length (a ++ b) = (String.length a + String.length b)%nat.
Proof. induction a as [|c a IH]; simpl; [reflexivity | now rewrite IH]. Qed.

Lemma run_pattern (s : string) :
  run labelInvalidCharsRegex s Some =
  match run optionalRun s lastChar with
  | Some out => Some out
  | None => lastChar s
  end.
Proof. reflexivity. Qed.

Lemma lastChar_some (m out : string) :
  lastChar m = Some out -> exists c, m = String c out /\ notAlnum c = true.
Proof.
  destruct m as [|c m]; unfold lastChar; cbn [run]; [discriminate|].
  intros H. exists c.
  unfold notAlnum, isAlnum, class_has in *.
  destruct (existsb (item_has c) alnum_items); simpl in *; [discriminate|].
  injection H as ->. split; reflexivity.
Qed.

(** A match of the pattern is a non-empty run of characters that are
    not alphanumeric. *)
Lemma matchWidth_some (s : string) (n : nat) :
  matchWidth labelInvalidCharsRegex s = Some n ->
  exists pre rest, s = pre ++ rest /\ String.length pre = n
                   /\ (1 <= n)%nat /\ allChars notAlnum pre = true.
Proof.
  unfold matchWidth. rewrite run_pattern.
  destruct (run optionalRun s lastChar) as [out|] eqn:E.
  - intros [= <-].
    destruct (run_takes notAlnum optionalRun pattern_takes_notAlnum s _ out E)
      as (pre & m & -> & Hpre & Hm).
    destruct (lastChar_some _ _ Hm) as (c & -> & Hc).
    exists (pre ++ String c EmptyString), out.
    rewrite append_assoc; simpl.
    repeat split.
    + rewrite !length_append; simpl; lia.
    + rewrite !length_append; simpl; lia.
    + rewrite allChars_app, Hpre; simpl; now rewrite Hc.
  - destruct (lastChar s) as [out|] eqn:Ek; [|discriminate].
    intros [= <-].
    destruct (lastChar_some _ _ Ek) as (c & -> & Hc).
    exists (String c EmptyString), out.
    cbn [String.length allChars append]. rewrite Hc.
    repeat split; lia.
Qed.

(** The pattern matches wherever a character that is not alphanumeric
    stands. *)
Lemma matchWidth_head (c : ascii) (rest : string) :
  isAlnum c = false ->
  exists n, matchWidth labelInvalidCharsRegex (String c rest) = Some n.
Proof.
  intros Hc. unfold matchWidth. rewrite run_pattern.
  destruct (run optionalRun (String c rest) lastChar) as [out|]; [eauto|].
  unfold lastChar; cbn [run].
  replace (class_has true alnum_items c) with true; [eauto|].
  unfold isAlnum, class_has in *.
  destruct (existsb (item_has c) alnum_items); simpl in *; congruence.
Qed.

Lemma dropMatches_keepAlnum (s : string) :
  forall skip pre rest,
    s = pre ++ rest -> String.length pre = skip -> allChars notAlnum pre = true ->
    dropMatches labelInvalidCharsRegex skip s = keepAlnum s.
Proof.
  induction s as [|c s IH]; intros skip pre rest Hs Hlen Hpre; [reflexivity|].
  cbn [dropMatches keepAlnum].
  destruct skip as [|n].
  - destruct (matchWidth labelInvalidCharsRegex (String c s)) as [[|n]|] eqn:E.
    + apply matchWidth_some in E. destruct E as (? & ? & _ & _ & H & _); lia.
    + apply matchWidth_some in E.
      destruct E as (p & r & Hpr & Hl & _ & Hp).
      destruct p as [|c' p]; [discriminate|].
      simpl in Hpr, Hl, Hp. injection Hpr as <- ->. injection Hl as Hl.
      apply andb_true_iff in Hp. destruct Hp as [Hc Hp].
      unfold notAlnum in Hc. apply negb_true_iff in Hc. rewrite Hc.
      eapply IH; eauto.
    + destruct (isAlnum c) eqn:Hc.
      * f_equal. apply (IH 0%nat EmptyString s); auto.
      * destruct (matchWidth_head c s Hc) as [n Hn]. congruence.
  - destruct pre as [|c' p]; [discriminate|].
    simpl in Hs, Hlen, Hpre. injection Hs as <- ->. injection Hlen as Hlen.
    apply andb_true_iff in Hpre. destruct Hpre as [Hc Hp].
    unfold notAlnum in Hc. apply negb_true_iff in Hc. rewrite Hc.
    eapply IH; eauto.
Qed.

(** Replacing every match by nothing leaves the letters and digits. *)
Lemma sanitize_keepAlnum (name : string) : sanitize name = keepAlnum name.
Proof.
  unfold sanitize, ReplaceAllString_empty.
  apply (dropMatches_keepAlnum name 0%nat EmptyString name); auto.
Qed.

(* ================================================================== *)
(** ** Running the methods *)

Ltac unfold_methods :=
  unfold perform, forget,
    InstanceMetadata, InstanceExists, InstanceShutdown,
    InstanceShutdownByProviderID, InstanceExistsByProviderID,
    CurrentNodeName, AddSSHKeyToAllInstances,
    InstanceTypeByProviderID, InstanceType, InstanceID,
    NodeAddressesByProviderID, NodeAddresses, nodeAddresses,
    GetZoneByNodeName, GetZoneByProviderID, GetZone,
    Initialize, HasClusterID, CSCloud_ProviderName,
    Routes, Clusters, Zones, InstancesV2, Instances, LoadBalancer,
    GetVirtualMachineByID, GetVirtualMachineByName, os_Hostname,
    klog, setZone, self, bind, ret in *.

(** The scrutinee to split on first: one that tests no other match. *)
Ltac innermost x :=
  match x with
  | context [match ?y with _ => _ end] => innermost y
  | _ => x
  end.

(** One step of a run: use what is known of the adapter and split on the
    next answer of the platform or the next test of the method. *)
Ltac step :=
  match goal with
  | H : client ?cs = _ |- context [client ?cs] => rewrite H
  | |- context [match ?x with _ => _ end] =>
      let y := innermost x in
      first [ match goal with H : y = _ |- _ => rewrite H end
            | destruct y eqn:? ]
  end; cbn beta iota in *.

Ltac run_methods := intros; unfold_methods; cbn beta iota; repeat step.

(** ** C1: the type of an instance *)

(** What the two type operations return on the code as it is written:
    when the lookup finds the instance, the letters and digits of the
    service-offering name in their order, every other character being
    removed wherever it stands. *)
Theorem InstanceType_keeps_letters_and_digits :
  forall (World : Type) (P : Platform World) (cs : CSCloud) (w w' : World)
         (c : CloudStackClient) (vm : VirtualMachine) (n : Z),
    client cs = Some c ->
    (forall name,
        vmByName P c name [WithProject (projectID cs)] w = (Found vm n, w') ->
        returned (InstanceType P name cs w)
        = Some (keepAlnum (Serviceofferingname vm), None))
    /\ (forall providerID,
        vmByID P c providerID [WithProject (projectID cs)] w = (Found vm n, w') ->
        returned (InstanceTypeByProviderID P providerID cs w)
        = Some (keepAlnum (Serviceofferingname vm), None))
    /\ keepAlnum "m1.small!!" = "m1small"
    /\ keepAlnum "##gpu-large" = "gpularge".
Proof.
  intros World P cs w w' c vm n Hc. repeat split.
  - intros name H. unfold InstanceType, GetVirtualMachineByName, bind, self, ret.
    rewrite Hc, H. cbn. now rewrite <- sanitize_keepAlnum.
  - intros id H. unfold InstanceTypeByProviderID, GetVirtualMachineByID, bind, self, ret.
    rewrite Hc, H. cbn. now rewrite <- sanitize_keepAlnum.
Qed.

Lemma InstanceType_keeps_letters_and_digits_witness :
  returned (InstanceType Sample.site "ctrl" (Sample.adapter "" "") tt)
  = Some ("m1small", None)
  /\ returned (InstanceTypeByProviderID Sample.site "vm-2" (Sample.adapter "" "") tt)
     = Some ("gpularge", None).
Proof.
  split.
  - exact (proj1 (InstanceType_keeps_letters_and_digits unit Sample.site
                    (Sample.adapter "" "") tt tt Sample.theClient Sample.ctrl 1
                    eq_refl) "ctrl" eq_refl).
  - exact (proj1 (proj2 (InstanceType_keeps_letters_and_digits unit Sample.site
                    (Sample.adapter "" "") tt tt Sample.theClient Sample.worker 1
                    eq_refl)) "vm-2" eq_refl).
Defined.

(** C1, at the failing input.  The claim says that the type operations
    strip only leading and trailing punctuation and keep an inner '-',
    '_' or '.', which is what the second bracket of the pattern spares.
    The code removes them all the same: the instance whose service
    offering is called "m1.small!!" gets the type "m1small", not
    "m1.small"; "##gpu-large" gives "gpularge", not "gpu-large"; and
    "a-b_c.d", with no leading or trailing punctuation at all, gives
    "abcd". *)
Lemma InstanceType_removes_inner_punctuation :
  Serviceofferingname Sample.ctrl = "m1.small!!"
  /\ returned (InstanceType Sample.site "ctrl" (Sample.adapter "" "") tt)
     = Some ("m1small", None)
  /\ returned (InstanceType Sample.site "ctrl" (Sample.adapter "" "") tt)
     <> Some ("m1.small", None)
  /\ Serviceofferingname Sample.worker = "##gpu-large"
  /\ returned (InstanceTypeByProviderID Sample.site "vm-2" (Sample.adapter "" "") tt)
     = Some ("gpularge", None)
  /\ returned (InstanceTypeByProviderID Sample.site "vm-2" (Sample.adapter "" "") tt)
     <> Some ("gpu-large", None)
  /\ ReplaceAllString_empty labelInvalidCharsRegex "a-b_c.d" = "abcd".
Proof. repeat split; try reflexivity; intros H; discriminate H. Qed.

(* ================================================================== *)
(** ** The remote lookups of each operation *)

Section Lookups.

Context {World : Type} (P : Platform World).
Variables (cs : CSCloud) (c : CloudStackClient) (w : World).
Hypothesis Hclient : client cs = Some c.

Let scope : list OptionFunc := [WithProject (projectID cs)].

Lemma lookups_NodeAddresses (name : NodeName) :
  lookups (events (NodeAddresses P name cs w)) = [EvByName name scope].
Proof. clear -Hclient. subst scope. run_methods; reflexivity. Qed.

Lemma lookups_NodeAddressesByProviderID (providerID : string) :
  lookups (events (NodeAddressesByProviderID P providerID cs w))
  = [EvByID providerID scope].
Proof. clear -Hclient. subst scope. run_methods; reflexivity. Qed.

Lemma lookups_InstanceID (name : NodeName) :
  lookups (events (InstanceID P name cs w)) = [EvByName name scope].
Proof. clear -Hclient. subst scope. run_methods; reflexivity. Qed.

Lemma lookups_InstanceType (name : NodeName) :
  lookups (events (InstanceType P name cs w)) = [EvByName name scope].
Proof. clear -Hclient. subst scope. run_methods; reflexivity. Qed.

Lemma lookups_InstanceTypeByProviderID (providerID : string) :
  lookups (events (InstanceTypeByProviderID P providerID cs w))
  = [EvByID providerID scope].
Proof. clear -Hclient. subst scope. run_methods; reflexivity. Qed.

Lemma lookups_InstanceExistsByProviderID (providerID : string) :
  lookups (events (InstanceExistsByProviderID P providerID cs w))
  = [EvByID providerID scope].
Proof. clear -Hclient. subst scope. run_methods; reflexivity. Qed.

Lemma lookups_GetZoneByProviderID (providerID : string) :
  lookups (events (GetZoneByProviderID P providerID cs w))
  = [EvByID providerID scope].
Proof. clear -Hclient. subst scope. run_methods; reflexivity. Qed.

Lemma lookups_GetZoneByNodeName (nodeName : NodeName) :
  lookups (events (GetZoneByNodeName P nodeName cs w))
  = [EvByName nodeName scope].
Proof. clear -Hclient. subst scope. run_methods; reflexivity. Qed.

(** The existence check by node object looks the identifier up by
    name and, when that succeeds, looks the instance up again by the
    identifier found. *)
Lemma lookups_InstanceExists (node : corev1.Node) :
  lookups (events (InstanceExists P node cs w))
  = match fst (vmByName P c (corev1.Name node) scope w) with
    | Failed _ _ => [EvByName (corev1.Name node) scope]
    | Found vm _ => [EvByName (corev1.Name node) scope; EvByID (Id vm) scope]
    end.
Proof.
  clear -Hclient. subst scope.
  destruct (vmByName P c (corev1.Name node) [WithProject (projectID cs)] w)
    as [[vm n|n e] w1] eqn:E; cbn [fst]; run_methods; reflexivity.
Qed.

End Lookups.

(** ** C2: how many remote lookups an operation makes *)

(** C2 (as amended).  On an adapter with a client, each call of
    addresses by node name, addresses by opaque identifier, identifier by
    node name, type by node name, type by opaque identifier and existence
    by opaque identifier makes exactly one remote lookup (by that name or
    identifier, with the project scope).  Existence by node object makes
    one lookup by the node's name and, when that lookup finds the
    instance, a second lookup by the identifier found: one lookup when the
    name lookup fails, two when it succeeds. *)
Theorem lookups_per_operation :
  forall (World : Type) (P : Platform World) (cs : CSCloud) (c : CloudStackClient)
         (w : World),
    client cs = Some c ->
    let scope := [WithProject (projectID cs)] in
    (forall name, lookups (events (NodeAddresses P name cs w)) = [EvByName name scope])
    /\ (forall id, lookups (events (NodeAddressesByProviderID P id cs w))
                   = [EvByID id scope])
    /\ (forall name, lookups (events (InstanceID P name cs w)) = [EvByName name scope])
    /\ (forall name, lookups (events (InstanceType P name cs w)) = [EvByName name scope])
    /\ (forall id, lookups (events (InstanceTypeByProviderID P id cs w))
                   = [EvByID id scope])
    /\ (forall id, lookups (events (InstanceExistsByProviderID P id cs w))
                   = [EvByID id scope])
    /\ (forall node,
          lookups (events (InstanceExists P node cs w))
          = match fst (vmByName P c (corev1.Name node) scope w) with
            | Failed _ _ => [EvByName (corev1.Name node) scope]
            | Found vm _ =>
                [EvByName (corev1.Name node) scope; EvByID (Id vm) scope]
            end).
Proof.
  intros World P cs c w Hc scope. subst scope.
  repeat split; intros.
  - now apply lookups_NodeAddresses with (c := c).
  - now apply lookups_NodeAddressesByProviderID with (c := c).
  - now apply lookups_InstanceID with (c := c).
  - now apply lookups_InstanceType with (c := c).
  - now apply lookups_InstanceTypeByProviderID with (c := c).
  - now apply lookups_InstanceExistsByProviderID with (c := c).
  - now apply lookups_InstanceExists.
Qed.

Lemma lookups_per_operation_witness :
  lookups (events (InstanceID Sample.site "worker-2" (Sample.adapter "p1" "") tt))
  = [EvByName "worker-2" [WithProject "p1"]]
  /\ lookups (events (InstanceExists Sample.site (Sample.nodeOf "gone")
                        (Sample.adapter "p1" "") tt))
     = [EvByName "gone" [WithProject "p1"]].
Proof.
  pose proof (lookups_per_operation unit Sample.site (Sample.adapter "p1" "")
                Sample.theClient tt eq_refl) as H.
  cbv zeta in H.
  destruct H as (_ & _ & H3 & _ & _ & _ & H7).
  split; [exact (H3 "worker-2") | exact (H7 (Sample.nodeOf "gone"))].
Defined.

(** C2 (as stated) fails for existence by node object: for a node whose
    instance exists the call makes two remote lookups, not one. *)
Lemma InstanceExists_makes_two_lookups :
  lookups (events (InstanceExists Sample.site (Sample.nodeOf "worker-2")
                     (Sample.adapter "" "") tt))
  = [EvByName "worker-2" [WithProject ""]; EvByID "vm-2" [WithProject ""]]
  /\ length (lookups (events (InstanceExists Sample.site (Sample.nodeOf "worker-2")
                                (Sample.adapter "" "") tt))) <> 1%nat.
Proof. split; [reflexivity | discriminate]. Qed.

(** ** C10: the project scope of the lookups *)

Lemma GetZone_lookups_unscoped {World : Type} (P : Platform World)
      (cs : CSCloud) (w : World) :
  Forall (fun e => optsOf e = []) (lookups (events (GetZone P cs w))).
Proof. run_methods; cbn; repeat constructor. Qed.

Lemma GetZone_lookup_by_hostname {World : Type} (P : Platform World)
      (cs : CSCloud) (c : CloudStackClient) (w w1 : World) (h : string) :
  client cs = Some c -> zone cs = "" -> hostname P w = ((h, None), w1) ->
  lookups (events (GetZone P cs w)) = [EvByName h []].
Proof.
  intros Hc Hz Hh.
  assert (Hz' : (zone cs =? "") = true) by (rewrite Hz; reflexivity).
  clear Hz. run_methods; reflexivity.
Qed.

(** C10.  The resolve-current-zone operation looks the local host name
    up with no option at all, whatever the project scope of the adapter
    is; every lookup of addresses (by name, by identifier), identifier,
    type (by name, by identifier), existence (by identifier, by node
    object), zone by opaque identifier and zone by node name is handed
    the project scope of the adapter. *)
Theorem project_scope_of_lookups :
  forall (World : Type) (P : Platform World) (cs : CSCloud) (c : CloudStackClient)
         (w : World),
    client cs = Some c ->
    let scope := [WithProject (projectID cs)] in
    Forall (fun e => optsOf e = []) (lookups (events (GetZone P cs w)))
    /\ (forall h w1, zone cs = "" -> hostname P w = ((h, None), w1) ->
                     lookups (events (GetZone P cs w)) = [EvByName h []])
    /\ (forall name, lookups (events (NodeAddresses P name cs w)) = [EvByName name scope])
    /\ (forall id, lookups (events (NodeAddressesByProviderID P id cs w))
                   = [EvByID id scope])
    /\ (forall name, lookups (events (InstanceID P name cs w)) = [EvByName name scope])
    /\ (forall name, lookups (events (InstanceType P name cs w)) = [EvByName name scope])
    /\ (forall id, lookups (events (InstanceTypeByProviderID P id cs w))
                   = [EvByID id scope])
    /\ (forall id, lookups (events (InstanceExistsByProviderID P id cs w))
                   = [EvByID id scope])
    /\ (forall node,
          lookups (events (InstanceExists P node cs w)) <> []
          /\ Forall (fun e => optsOf e = scope)
                    (lookups (events (InstanceExists P node cs w))))
    /\ (forall id, lookups (events (GetZoneByProviderID P id cs w)) = [EvByID id scope])
    /\ (forall name, lookups (events (GetZoneByNodeName P name cs w))
                     = [EvByName name scope]).
Proof.
  intros World P cs c w Hc scope. subst scope.
  split; [apply GetZone_lookups_unscoped|].
  split; [intros; now apply GetZone_lookup_by_hostname with (c := c) (w1 := w1)|].
  repeat split; intros.
  - now apply lookups_NodeAddresses with (c := c).
  - now apply lookups_NodeAddressesByProviderID with (c := c).
  - now apply lookups_InstanceID with (c := c).
  - now apply lookups_InstanceType with (c := c).
  - now apply lookups_InstanceTypeByProviderID with (c := c).
  - now apply lookups_InstanceExistsByProviderID with (c := c).
  - rewrite (lookups_InstanceExists P cs c w Hc).
    destruct (fst _); discriminate.
  - rewrite (lookups_InstanceExists P cs c w Hc).
    destruct (fst _); repeat constructor.
  - now apply lookups_GetZoneByProviderID with (c := c).
  - now apply lookups_GetZoneByNodeName with (c := c).
Qed.

Lemma project_scope_of_lookups_witness :
  lookups (events (GetZone Sample.site (Sample.adapter "p1" "") tt))
  = [EvByName "ctrl" []]
  /\ lookups (events (GetZoneByNodeName Sample.site "ctrl" (Sample.adapter "p1" "") tt))
     = [EvByName "ctrl" [WithProject "p1"]].
Proof.
  pose proof (project_scope_of_lookups unit Sample.site (Sample.adapter "p1" "")
                Sample.theClient tt eq_refl) as H.
  cbv zeta in H.
  destruct H as (_ & H2 & _ & _ & _ & _ & _ & _ & _ & _ & H11).
  split; [exact (H2 "ctrl" tt eq_refl eq_refl) | exact (H11 "ctrl")].
Defined.

(** ** C4: the address list of an instance *)

(** C4.  For every remote instance record: with no network interface the
    address operations fail with the error "instance does not have an
    internal IP"; otherwise they return, in this order, the address of
    the first interface as internal IP, a host-name entry only when the
    host name of the record is not empty, and an external-IP entry only
    when its public IP is not empty, with no error.  One interface
    "10.0.0.5" with empty host name and public IP gives exactly the
    internal entry; with host name "node1" and public IP "203.0.113.9"
    the three entries internal, host name, external. *)
Theorem nodeAddresses_list :
  forall (World : Type) (P : Platform World) (cs : CSCloud) (c : CloudStackClient)
         (w w' : World) (vm : VirtualMachine) (n : Z),
    client cs = Some c ->
    let expected :=
      match Nic_ vm with
      | [] => ([], Some (New "instance does not have an internal IP"))
      | nic0 :: _ => (addressList nic0 vm, None)
      end in
    returned (nodeAddresses vm cs w) = Some expected
    /\ (forall name,
          vmByName P c name [WithProject (projectID cs)] w = (Found vm n, w') ->
          returned (NodeAddresses P name cs w) = Some expected)
    /\ (forall providerID,
          vmByID P c providerID [WithProject (projectID cs)] w = (Found vm n, w') ->
          returned (NodeAddressesByProviderID P providerID cs w) = Some expected)
    /\ (forall id name zonename offering,
          returned (nodeAddresses
                      (Sample.vm id name "" "" zonename offering ["10.0.0.5"]) cs w)
          = Some ([addr corev1.NodeInternalIP "10.0.0.5"], None))
    /\ (forall id name zonename offering,
          returned (nodeAddresses
                      (Sample.vm id name "node1" "203.0.113.9" zonename offering
                                 ["10.0.0.5"]) cs w)
          = Some ([addr corev1.NodeInternalIP "10.0.0.5";
                   addr corev1.NodeHostName "node1";
                   addr corev1.NodeExternalIP "203.0.113.9"], None)).
Proof.
  intros World P cs c w w' vm n Hc expected.
  assert (Hlist : forall u : World,
             returned (nodeAddresses vm cs u) = Some expected).
  { intros u. subst expected. unfold_methods.
    unfold addressList, addr, nonEmpty. destruct (Nic_ vm) as [|nic0 rest]; [reflexivity|].
    destruct (Hostname vm =? ""), (Publicip vm =? ""); reflexivity. }
  split; [apply Hlist|].
  split; [|split; [|split; reflexivity]].
  - intros name H. rewrite <- (Hlist w').
    unfold NodeAddresses, GetVirtualMachineByName, bind, self.
    rewrite Hc, H. cbn beta iota.
    destruct (nodeAddresses vm cs w'); reflexivity.
  - intros id H. rewrite <- (Hlist w').
    unfold NodeAddressesByProviderID, GetVirtualMachineByID, bind, self.
    rewrite Hc, H. cbn beta iota.
    destruct (nodeAddresses vm cs w'); reflexivity.
Qed.

Lemma nodeAddresses_list_witness :
  returned (NodeAddresses Sample.site "worker-2" (Sample.adapter "" "") tt)
  = Some ([addr corev1.NodeInternalIP "10.0.0.6";
           addr corev1.NodeHostName "node1";
           addr corev1.NodeExternalIP "203.0.113.9"], None)
  /\ returned (NodeAddressesByProviderID Sample.site "vm-3" (Sample.adapter "" "") tt)
     = Some ([], Some (New "instance does not have an internal IP")).
Proof.
  split.
  - exact (proj1 (proj2 (nodeAddresses_list unit Sample.site (Sample.adapter "" "")
                           Sample.theClient tt tt Sample.worker 1 eq_refl))
                 "worker-2" eq_refl).
  - exact (proj1 (proj2 (proj2 (nodeAddresses_list unit Sample.site
                                  (Sample.adapter "" "") Sample.theClient tt tt
                                  Sample.bare 1 eq_refl)))
                 "vm-3" eq_refl).
Defined.

(** ** C6: making the adapter *)

(** C6.  [newCSCloud] fails with the error "no cloud provider config
    given" (the configuration error) whenever the endpoint URL, the API
    key or the secret key of the settings is empty, and succeeds whenever
    the three are not empty, with a client made for that endpoint and
    those keys (TLS verification on unless the settings switch it off),
    the project scope and the zone of the settings. *)
Theorem newCSCloud_needs_endpoint_and_keys :
  forall cfg : CSConfig,
    let g := Global cfg in
    (APIURL g = "" \/ APIKey g = "" \/ SecretKey g = "" ->
     newCSCloud cfg = (None, Some (New "no cloud provider config given")))
    /\ (APIURL g <> "" /\ APIKey g <> "" /\ SecretKey g <> "" ->
        newCSCloud cfg
        = (Some {| client := Some (NewAsyncClient (APIURL g) (APIKey g) (SecretKey g)
                                     (negb (SSLNoVerify g)));
                   projectID := ProjectID g;
                   zone := Zone g |}, None)).
Proof.
  intros cfg g; subst g; unfold newCSCloud, nonEmpty; split.
  - intros [H | [H | H]]; rewrite H; cbn;
      repeat match goal with
             | |- context [negb (?x =? "")] => destruct (x =? "")
             end; reflexivity.
  - intros (H1 & H2 & H3).
    apply String.eqb_neq in H1, H2, H3. rewrite H1, H2, H3. reflexivity.
Qed.

Lemma newCSCloud_needs_endpoint_and_keys_witness :
  newCSCloud {| Global := {| APIURL := "https://cloud.example/client/api";
                             APIKey := ""; SecretKey := "secret";
                             SSLNoVerify := false; ProjectID := ""; Zone := "" |} |}
  = (None, Some (New "no cloud provider config given"))
  /\ newCSCloud {| Global := {| APIURL := "https://cloud.example/client/api";
                                APIKey := "key"; SecretKey := "secret";
                                SSLNoVerify := false; ProjectID := "p1";
                                Zone := "" |} |}
     = (Some (Sample.adapter "p1" ""), None).
Proof.
  split.
  - apply (proj1 (newCSCloud_needs_endpoint_and_keys _)).
    right; left; reflexivity.
  - apply (proj2 (newCSCloud_needs_endpoint_and_keys
                    {| Global := {| APIURL := "https://cloud.example/client/api";
                                    APIKey := "key"; SecretKey := "secret";
                                    SSLNoVerify := false; ProjectID := "p1";
                                    Zone := "" |} |})).
    repeat split; discriminate.
Defined.

(** ** C7: the capabilities *)

(** C7.  On an adapter with a client the queries for load balancer,
    instances, instances-v2 and zones answer "supported" and hand back
    the adapter itself, and the queries for clusters and routes answer
    "unsupported"; on an adapter without a client every one of the six
    queries answers "unsupported".  No query changes the adapter. *)
Theorem capabilities :
  forall (World : Type) (cs : CSCloud) (w : World),
    (forall c, client cs = Some c ->
       returned (LoadBalancer cs w) = Some (Some cs, true)
       /\ returned (Instances cs w) = Some (Some cs, true)
       /\ returned (InstancesV2 cs w) = Some (Some cs, true)
       /\ returned (Zones cs w) = Some (Some cs, true)
       /\ returned (Clusters cs w) = Some (None, false)
       /\ returned (Routes cs w) = Some (None, false))
    /\ (client cs = None ->
       returned (LoadBalancer cs w) = Some (None, false)
       /\ returned (Instances cs w) = Some (None, false)
       /\ returned (InstancesV2 cs w) = Some (None, false)
       /\ returned (Zones cs w) = Some (None, false)
       /\ returned (Clusters cs w) = Some (None, false)
       /\ returned (Routes cs w) = Some (None, false))
    /\ adapterAfter (LoadBalancer cs w) = Some cs
    /\ adapterAfter (Instances cs w) = Some cs
    /\ adapterAfter (InstancesV2 cs w) = Some cs
    /\ adapterAfter (Zones cs w) = Some cs
    /\ adapterAfter (Clusters cs w) = Some cs
    /\ adapterAfter (Routes cs w) = Some cs.
Proof.
  intros World cs w. unfold_methods. cbn beta iota.
  split; [intros c Hc; rewrite Hc | split; [intros Hc; rewrite Hc|]];
    cbn; try (destruct (client cs)); cbn; repeat split.
Qed.

Lemma capabilities_witness :
  returned (Zones (Sample.adapter "" "") tt) = Some (Some (Sample.adapter "" ""), true)
  /\ returned (Routes (Sample.adapter "" "") tt) = Some (None, false)
  /\ returned (LoadBalancer {| client := None; projectID := ""; zone := "" |} tt)
     = Some (None, false).
Proof.
  pose proof (proj1 (capabilities unit (Sample.adapter "" "") tt)
                Sample.theClient eq_refl) as (_ & _ & _ & H4 & _ & H6).
  pose proof (proj1 (proj2 (capabilities unit
                              {| client := None; projectID := ""; zone := "" |} tt))
                eq_refl) as (H1 & _).
  exact (conj H4 (conj H6 H1)).
Defined.

(** ** C5: the zone of the adapter *)




(** ** C3: the metadata of a node *)

(** The steps of [InstanceMetadata] as the code is written: the type
    lookup for the node's name, then the address lookup for the same
    name, then [GetZone], in this order; the error of the first of the
    three that fails is returned unchanged and nothing more is called;
    when all succeed the record has the provider's name as provider ID,
    the type and the addresses found, and the zone of the adapter after
    [GetZone] as zone and as region. *)
Theorem InstanceMetadata_sequence :
  forall (World : Type) (P : Platform World) (cs : CSCloud) (w : World)
         (node : corev1.Node),
    let name := corev1.Name node in
    (forall t err cs1 w1 evs1,
        InstanceType P name cs w = Done (t, Some err) cs1 w1 evs1 ->
        InstanceMetadata P node cs w = Done (None, Some err) cs1 w1 evs1)
    /\ (forall t cs1 w1 evs1 a err cs2 w2 evs2,
        InstanceType P name cs w = Done (t, None) cs1 w1 evs1 ->
        NodeAddresses P name cs1 w1 = Done (a, Some err) cs2 w2 evs2 ->
        InstanceMetadata P node cs w = Done (None, Some err) cs2 w2 (evs1 ++ evs2))
    /\ (forall t cs1 w1 evs1 a cs2 w2 evs2 z err cs3 w3 evs3,
        InstanceType P name cs w = Done (t, None) cs1 w1 evs1 ->
        NodeAddresses P name cs1 w1 = Done (a, None) cs2 w2 evs2 ->
        GetZone P cs2 w2 = Done (z, Some err) cs3 w3 evs3 ->
        InstanceMetadata P node cs w
        = Done (None, Some err) cs3 w3 (evs1 ++ evs2 ++ evs3))
    /\ (forall t cs1 w1 evs1 a cs2 w2 evs2 z cs3 w3 evs3,
        InstanceType P name cs w = Done (t, None) cs1 w1 evs1 ->
        NodeAddresses P name cs1 w1 = Done (a, None) cs2 w2 evs2 ->
        GetZone P cs2 w2 = Done (z, None) cs3 w3 evs3 ->
        InstanceMetadata P node cs w
        = Done (Some {| cloudprovider.ProviderID := "external-cloudstack";
                        cloudprovider.InstanceType := t;
                        cloudprovider.NodeAddresses := a;
                        cloudprovider.Zone_ := zone cs3;
                        cloudprovider.Region_ := zone cs3 |}, None)
               cs3 w3 (evs1 ++ evs2 ++ evs3)
        /\ cloudprovider.FailureDomain z = zone cs3
        /\ cloudprovider.Region z = zone cs3).
Proof.
  intros World P cs w node name. subst name.
  split; [|split; [|split]].
  - intros t err cs1 w1 evs1 H1.
    unfold InstanceMetadata, bind at 1. rewrite H1. cbn.
    now rewrite app_nil_r.
  - intros t cs1 w1 evs1 a err cs2 w2 evs2 H1 H2.
    unfold InstanceMetadata, bind at 1. rewrite H1. cbn beta iota.
    unfold bind at 1. rewrite H2. cbn.
    now rewrite app_nil_r.
  - intros t cs1 w1 evs1 a cs2 w2 evs2 z err cs3 w3 evs3 H1 H2 H3.
    unfold InstanceMetadata, bind at 1. rewrite H1. cbn beta iota.
    unfold bind at 1. rewrite H2. cbn beta iota.
    unfold bind at 1. rewrite H3. cbn.
    now rewrite app_nil_r.
  - intros t cs1 w1 evs1 a cs2 w2 evs2 z cs3 w3 evs3 H1 H2 H3.
    assert (Hz : cloudprovider.FailureDomain z = zone cs3
                 /\ cloudprovider.Region z = zone cs3).
    { revert H3. clear. unfold_methods; cbn beta iota; repeat step;
        try discriminate; intros [= <- <- _ _]; split; reflexivity. }
    split; [|exact Hz]. destruct Hz as [_ Hr].
    unfold InstanceMetadata, bind at 1. rewrite H1. cbn beta iota.
    unfold bind at 1. rewrite H2. cbn beta iota.
    unfold bind at 1. rewrite H3. cbn.
    now rewrite Hr, app_nil_r.
Qed.

Lemma InstanceMetadata_sequence_witness :
  InstanceMetadata Sample.site (Sample.nodeOf "bare") (Sample.adapter "" "") tt
  = Done (None, Some (New "instance does not have an internal IP"))
         (Sample.adapter "" "") tt
         [EvByName "bare" [WithProject ""]; EvByName "bare" [WithProject ""]]
  /\ InstanceMetadata Sample.site (Sample.nodeOf "gone") (Sample.adapter "" "") tt
     = Done (None, Some InstanceNotFound) (Sample.adapter "" "") tt
            [EvByName "gone" [WithProject ""]].
Proof.
  split.
  - exact (proj1 (proj2 (InstanceMetadata_sequence unit Sample.site
                           (Sample.adapter "" "") tt (Sample.nodeOf "bare")))
                 "tiny" (Sample.adapter "" "") tt [EvByName "bare" [WithProject ""]]
                 [] (New "instance does not have an internal IP")
                 (Sample.adapter "" "") tt [EvByName "bare" [WithProject ""]]
                 eq_refl eq_refl).
  - exact (proj1 (InstanceMetadata_sequence unit Sample.site
                    (Sample.adapter "" "") tt (Sample.nodeOf "gone"))
                 "" InstanceNotFound (Sample.adapter "" "") tt
                 [EvByName "gone" [WithProject ""]] eq_refl).
Defined.

(** C3, at the failing input.  The claim says that the zone lookup of
    the metadata operation is, like its type and address lookups, for
    the node asked about.  The code calls [GetZone], which answers for
    the host the program runs on: the metadata of node "worker-2", an
    instance of zone "zoneB", asked of an adapter that runs on host
    "ctrl" in zone "zoneA", makes its third lookup for "ctrl" and
    reports "zoneA", where [GetZoneByNodeName] for that node reports
    "zoneB".  Type, addresses and provider ID are as the claim says. *)
Lemma InstanceMetadata_zone_is_not_the_node_s :
  Zonename Sample.worker = "zoneB"
  /\ lookups (events (InstanceMetadata Sample.site (Sample.nodeOf "worker-2")
                        (Sample.adapter "" "") tt))
     = [EvByName "worker-2" [WithProject ""]; EvByName "worker-2" [WithProject ""];
        EvByName "ctrl" []]
  /\ returned (InstanceMetadata Sample.site (Sample.nodeOf "worker-2")
                 (Sample.adapter "" "") tt)
     = Some (Some {| cloudprovider.ProviderID := "external-cloudstack";
                     cloudprovider.InstanceType := "gpularge";
                     cloudprovider.NodeAddresses :=
                       [addr corev1.NodeInternalIP "10.0.0.6";
                        addr corev1.NodeHostName "node1";
                        addr corev1.NodeExternalIP "203.0.113.9"];
                     cloudprovider.Zone_ := "zoneA";
                     cloudprovider.Region_ := "zoneA" |}, None)
  /\ returned (GetZoneByNodeName Sample.site "worker-2" (Sample.adapter "" "") tt)
     = Some ({| cloudprovider.FailureDomain := "zoneB";
                cloudprovider.Region := "zoneB" |}, None)
  /\ "zoneA" <> Zonename Sample.worker.
Proof. repeat split; discriminate. Qed.

(** ** C8: does the instance exist *)

(** Existence by opaque identifier: no error and [false] on zero
    matches, an error that names the operation on any other failure,
    [true] when the instance is found. *)
Lemma InstanceExistsByProviderID_result {World : Type} (P : Platform World)
      (cs : CSCloud) (c : CloudStackClient) (w : World) (providerID : string) :
  client cs = Some c ->
  returned (InstanceExistsByProviderID P providerID cs w)
  = Some match fst (vmByID P c providerID [WithProject (projectID cs)] w) with
         | Found _ _ => (true, None)
         | Failed count err =>
             if (count =? 0)%Z then (false, None)
             else (false, Some (New ("error retrieving instance: " ++ Error err)))
         end.
Proof.
  intros Hc.
  destruct (vmByID P c providerID [WithProject (projectID cs)] w)
    as [[vm n|n e] w1] eqn:E; cbn [fst]; run_methods; reflexivity.
Qed.

(** Existence by node object, when the lookup by name reports zero
    matches: the error of the identifier lookup comes back. *)
Lemma InstanceExists_zero_matches {World : Type} (P : Platform World)
      (cs : CSCloud) (c : CloudStackClient) (w w1 : World) (node : corev1.Node)
      (err : error) :
  client cs = Some c ->
  vmByName P c (corev1.Name node) [WithProject (projectID cs)] w = (Failed 0 err, w1) ->
  InstanceExists P node cs w
  = Done (false, Some InstanceNotFound) cs w1
         [EvByName (corev1.Name node) [WithProject (projectID cs)]].
Proof. run_methods; first [reflexivity | cbn in *; discriminate]. Qed.

(** C8, at the failing input.  The platform knows no instance called
    "gone" and reports zero matches: existence by node object returns
    [false] together with the error [InstanceNotFound], not [false] with
    no error; existence by opaque identifier, asked for an identifier with
    zero matches, returns [false] with no error.  The other cases are as
    the claim says for both operations: a failure in transport gives
    [false] and an error that names the operation, an instance that is
    found gives [true]. *)
Theorem InstanceExists_unknown_node_is_an_error :
  Sample.findBy cloudstack.Name "gone" [Sample.ctrl; Sample.worker; Sample.bare]
  = Failed 0 (New "No match found for gone")
  /\ InstanceExists Sample.site (Sample.nodeOf "gone") (Sample.adapter "" "") tt
     = Done (false, Some InstanceNotFound) (Sample.adapter "" "") tt
            [EvByName "gone" [WithProject ""]]
  /\ InstanceExistsByProviderID Sample.site "gone" (Sample.adapter "" "") tt
     = Done (false, None) (Sample.adapter "" "") tt
            [EvByID "gone" [WithProject ""]]
  /\ returned (InstanceExists Sample.unreachable (Sample.nodeOf "worker-2")
                 (Sample.adapter "" "") tt)
     = Some (false, Some (New "error retrieving instance ID: connection refused"))
  /\ returned (InstanceExistsByProviderID Sample.unreachable "vm-2"
                 (Sample.adapter "" "") tt)
     = Some (false, Some (New "error retrieving instance: connection refused"))
  /\ returned (InstanceExists Sample.site (Sample.nodeOf "worker-2")
                 (Sample.adapter "" "") tt)
     = Some (true, None)
  /\ returned (InstanceExistsByProviderID Sample.site "vm-2" (Sample.adapter "" "") tt)
     = Some (true, None).
Proof. repeat split. Qed.

(** ** C9: the cached zone *)

(** With a cached zone no operation writes to the adapter. *)
Lemma perform_keeps_adapter {World : Type} (P : Platform World)
      (cs cs' : CSCloud) (w w' : World) (op : Operation) (evs : list Event) :
  zone cs <> "" ->
  perform P op cs w = Done tt cs' w' evs -> cs' = cs.
Proof.
  intros Hz. apply String.eqb_neq in Hz.
  destruct op; unfold_methods; cbn beta iota; repeat step;
    try discriminate; intros [= <- _ _]; reflexivity.
Qed.

(** On an adapter with a client every operation returns. *)
Lemma perform_returns {World : Type} (P : Platform World)
      (cs : CSCloud) (c : CloudStackClient) (w : World) (op : Operation) :
  client cs = Some c -> perform P op cs w <> Panic.
Proof.
  intros Hc.
  destruct op; unfold_methods; cbn beta iota; cbn [client with_zone];
    repeat step; cbn [client with_zone]; repeat step; discriminate.
Qed.

(** The zone operations by identifier and by name give the same answer,
    make the same lookup and leave the adapter as it is, whatever the
    cached zone. *)
Lemma GetZoneBy_ignores_cache {World : Type} (P : Platform World)
      (cs : CSCloud) (c : CloudStackClient) (w : World) (z key : string) :
  client cs = Some c ->
  (adapterAfter (GetZoneByProviderID P key (with_zone cs z) w) = Some (with_zone cs z)
   /\ returned (GetZoneByProviderID P key (with_zone cs z) w)
      = returned (GetZoneByProviderID P key cs w)
   /\ lookups (events (GetZoneByProviderID P key (with_zone cs z) w))
      = [EvByID key [WithProject (projectID cs)]])
  /\ (adapterAfter (GetZoneByNodeName P key (with_zone cs z) w) = Some (with_zone cs z)
      /\ returned (GetZoneByNodeName P key (with_zone cs z) w)
         = returned (GetZoneByNodeName P key cs w)
      /\ lookups (events (GetZoneByNodeName P key (with_zone cs z) w))
         = [EvByName key [WithProject (projectID cs)]]).
Proof.
  intros Hc. unfold_methods. cbn [client projectID with_zone]. rewrite Hc.
  cbn beta iota.
  destruct (vmByID P c key [WithProject (projectID cs)] w) as [[vm n|n e] w1];
    destruct (vmByName P c key [WithProject (projectID cs)] w) as [[vm' n'|n' e'] w2];
    cbn beta iota;
    repeat match goal with
           | |- context [(?n =? 0)%Z] => destruct (n =? 0)%Z
           end;
    repeat split.
Qed.

(** The events of the two zone operations by key: the lookup and, when
    the instance is found, one log line, which prints the cached zone. *)
Lemma GetZoneBy_events {World : Type} (P : Platform World)
      (cs : CSCloud) (c : CloudStackClient) (w : World) (key : string) :
  client cs = Some c ->
  events (GetZoneByProviderID P key cs w)
  = EvByID key [WithProject (projectID cs)]
    :: match fst (vmByID P c key [WithProject (projectID cs)] w) with
       | Found _ _ => [EvLog (InfoV 2) ("Current zone is " ++ zone cs)]
       | Failed _ _ => []
       end
  /\ events (GetZoneByNodeName P key cs w)
     = EvByName key [WithProject (projectID cs)]
       :: match fst (vmByName P c key [WithProject (projectID cs)] w) with
          | Found _ _ => [EvLog (InfoV 2) ("Current zone is " ++ zone cs)]
          | Failed _ _ => []
          end.
Proof.
  intros Hc. split.
  - destruct (vmByID P c key [WithProject (projectID cs)] w) as [[vm n|n e] w1] eqn:E;
      cbn [fst]; run_methods; reflexivity.
  - destruct (vmByName P c key [WithProject (projectID cs)] w) as [[vm n|n e] w1] eqn:E;
      cbn [fst]; run_methods; reflexivity.
Qed.

(** C9 (as amended).  Once the cached zone is not empty no operation of
    the adapter changes it (nor any other field): resolve-current-zone
    returns it with no remote lookup and without asking for the host
    name, and every operation, on an adapter with a client, returns and
    leaves the adapter as it was.  The operations
    resolve-zone-by-opaque-identifier and resolve-zone-by-node-name never
    write the cache and make one fresh remote lookup on every call; their
    answer and that lookup are the same whatever the cache holds.  They
    do read the cache, for one purpose only: when the instance is found
    they print the cached zone in a log line. *)
Theorem zone_cache_is_kept :
  forall (World : Type) (P : Platform World) (cs : CSCloud) (c : CloudStackClient)
         (w : World),
    client cs = Some c ->
    (zone cs <> "" ->
       GetZone P cs w
       = Done ({| cloudprovider.FailureDomain := zone cs;
                  cloudprovider.Region := zone cs |}, None) cs w
              [EvLog (InfoV 2) ("Current zone is " ++ zone cs)])
    /\ (zone cs <> "" ->
        forall op, adapterAfter (perform P op cs w) = Some cs)
    /\ (forall z providerID,
          adapterAfter (GetZoneByProviderID P providerID (with_zone cs z) w)
          = Some (with_zone cs z)
          /\ returned (GetZoneByProviderID P providerID (with_zone cs z) w)
             = returned (GetZoneByProviderID P providerID cs w)
          /\ lookups (events (GetZoneByProviderID P providerID (with_zone cs z) w))
             = [EvByID providerID [WithProject (projectID cs)]]
          /\ events (GetZoneByProviderID P providerID (with_zone cs z) w)
             = EvByID providerID [WithProject (projectID cs)]
               :: match fst (vmByID P c providerID [WithProject (projectID cs)] w) with
                  | Found _ _ => [EvLog (InfoV 2) ("Current zone is " ++ z)]
                  | Failed _ _ => []
                  end)
    /\ (forall z nodeName,
          adapterAfter (GetZoneByNodeName P nodeName (with_zone cs z) w)
          = Some (with_zone cs z)
          /\ returned (GetZoneByNodeName P nodeName (with_zone cs z) w)
             = returned (GetZoneByNodeName P nodeName cs w)
          /\ lookups (events (GetZoneByNodeName P nodeName (with_zone cs z) w))
             = [EvByName nodeName [WithProject (projectID cs)]]
          /\ events (GetZoneByNodeName P nodeName (with_zone cs z) w)
             = EvByName nodeName [WithProject (projectID cs)]
               :: match fst (vmByName P c nodeName [WithProject (projectID cs)] w) with
                  | Found _ _ => [EvLog (InfoV 2) ("Current zone is " ++ z)]
                  | Failed _ _ => []
                  end).
Proof.
  intros World P cs c w Hc. split; [|split; [|split]].
  - intros Hz. apply String.eqb_neq in Hz.
    unfold_methods. rewrite Hz. reflexivity.
  - intros Hz op.
    destruct (perform P op cs w) as [|[] cs' w' evs] eqn:E.
    + now apply (perform_returns P cs c w op Hc) in E.
    + cbn. f_equal. eapply perform_keeps_adapter; eauto.
  - intros z providerID.
    destruct (proj1 (GetZoneBy_ignores_cache P cs c w z providerID Hc))
      as (H1 & H2 & H3).
    repeat split; try assumption.
    exact (proj1 (GetZoneBy_events P (with_zone cs z) c w providerID Hc)).
  - intros z nodeName.
    destruct (proj2 (GetZoneBy_ignores_cache P cs c w z nodeName Hc))
      as (H1 & H2 & H3).
    repeat split; try assumption.
    exact (proj2 (GetZoneBy_events P (with_zone cs z) c w nodeName Hc)).
Qed.

Lemma zone_cache_is_kept_witness :
  GetZone Sample.site (Sample.adapter "" "zoneX") tt
  = Done ({| cloudprovider.FailureDomain := "zoneX";
             cloudprovider.Region := "zoneX" |}, None)
         (Sample.adapter "" "zoneX") tt
         [EvLog (InfoV 2) "Current zone is zoneX"]
  /\ adapterAfter (perform Sample.site (OpInstanceMetadata (Sample.nodeOf "worker-2"))
                     (Sample.adapter "" "zoneX") tt)
     = Some (Sample.adapter "" "zoneX")
  /\ returned (GetZoneByNodeName Sample.site "worker-2" (Sample.adapter "" "zoneX") tt)
     = Some ({| cloudprovider.FailureDomain := "zoneB";
                cloudprovider.Region := "zoneB" |}, None).
Proof.
  pose proof (zone_cache_is_kept unit Sample.site (Sample.adapter "" "zoneX")
                Sample.theClient tt eq_refl) as (H1 & H2 & _ & H4).
  split; [apply H1; discriminate|].
  split; [apply H2; discriminate|].
  destruct (H4 "zoneX" "worker-2") as (_ & H & _). exact H.
Defined.

(** C9 (as stated) fails in "never read": the two zone operations by
    key read the cached zone and print it.  Asked for the same node of
    the same platform, two adapters that differ only in the cached zone
    write different log lines, each with its own cached value (and not
    the zone "zoneB" that was found). *)
Lemma GetZoneBy_key_prints_the_cached_zone :
  events (GetZoneByNodeName Sample.site "worker-2" (Sample.adapter "" "zoneX") tt)
  = [EvByName "worker-2" [WithProject ""]; EvLog (InfoV 2) "Current zone is zoneX"]
  /\ events (GetZoneByNodeName Sample.site "worker-2" (Sample.adapter "" "zoneY") tt)
     = [EvByName "worker-2" [WithProject ""]; EvLog (InfoV 2) "Current zone is zoneY"]
  /\ events (GetZoneByNodeName Sample.site "worker-2" (Sample.adapter "" "zoneX") tt)
     <> events (GetZoneByNodeName Sample.site "worker-2" (Sample.adapter "" "zoneY") tt)
  /\ events (GetZoneByProviderID Sample.site "vm-2" (Sample.adapter "" "zoneX") tt)
     = [EvByID "vm-2" [WithProject ""]; EvLog (InfoV 2) "Current zone is zoneX"]
  /\ events (GetZoneByProviderID Sample.site "vm-2" (Sample.adapter "" "zoneX") tt)
     <> events (GetZoneByProviderID Sample.site "vm-2" (Sample.adapter "" "zoneY") tt).
Proof. repeat split; try reflexivity; intros H; discriminate H. Qed.

(* ================================================================== *)
(** * Further properties of the code *)

(** ** The sanitized type *)

Lemma keepAlnum_allAlnum (s : string) : allChars isAlnum (keepAlnum s) = true.
Proof.
  induction s as [|c s IH]; simpl; [reflexivity|].
  destruct (isAlnum c) eqn:Hc; simpl; [now rewrite Hc|exact IH].
Qed.

Lemma keepAlnum_length (s : string) :
  (String.length (keepAlnum s) <= String.length s)%nat.
Proof.
  induction s as [|c s IH]; simpl; [lia|].
  destruct (isAlnum c); simpl; lia.
Qed.

Lemma keepAlnum_fixed (s : string) :
  keepAlnum s = s <-> allChars isAlnum s = true.
Proof.
  split.
  - intros H. rewrite <- H. apply keepAlnum_allAlnum.
  - induction s as [|c s IH]; simpl; [reflexivity|].
    intros H. apply andb_true_iff in H. destruct H as [Hc Hs].
    rewrite Hc. f_equal. auto.
Qed.

Lemma keepAlnum_app (a b : string) :
  keepAlnum (a ++ b) = keepAlnum a ++ keepAlnum b.
Proof.
  induction a as [|c a IH]; simpl; [reflexivity|].
  destruct (isAlnum c); simpl; now rewrite IH.
Qed.

(** X1.  Whatever the platform answers, the type string that
    [InstanceType] and [InstanceTypeByProviderID] return is made of
    letters and digits only (it is empty when they return an error). *)
Theorem InstanceType_result_is_alphanumeric :
  forall (World : Type) (P : Platform World) (cs : CSCloud) (w : World)
         (key t : string) (e : option error),
    (returned (InstanceType P key cs w) = Some (t, e)
     \/ returned (InstanceTypeByProviderID P key cs w) = Some (t, e)) ->
    allChars isAlnum t = true /\ (e <> None -> t = "").
Proof.
  intros World P cs w key t e [H | H]; revert H;
    unfold_methods; cbn beta iota; repeat step; cbn;
    try discriminate; intros [= <- <-];
    try (split; [reflexivity | reflexivity]);
    (split; [| intros He; now elim He]);
    change (ReplaceAllString_empty labelInvalidCharsRegex ?x) with (sanitize x);
    rewrite sanitize_keepAlnum; apply keepAlnum_allAlnum.
Qed.

Lemma InstanceType_result_is_alphanumeric_witness :
  allChars isAlnum "m1small" = true /\ ((@None error) <> None -> "m1small" = "").
Proof.
  apply (InstanceType_result_is_alphanumeric unit Sample.site (Sample.adapter "" "")
           tt "ctrl" "m1small" None).
  left; reflexivity.
Defined.

(** X2.  Sanitizing is idempotent, never makes the name longer, and
    leaves a name unchanged exactly when the name is made of letters and
    digits only. *)
Theorem sanitize_idempotent :
  forall name : string,
    sanitize (sanitize name) = sanitize name
    /\ (String.length (sanitize name) <= String.length name)%nat
    /\ (sanitize name = name <-> allChars isAlnum name = true).
Proof.
  intros name. rewrite !sanitize_keepAlnum. repeat split.
  - apply keepAlnum_fixed, keepAlnum_allAlnum.
  - apply keepAlnum_length.
  - apply keepAlnum_fixed.
  - apply keepAlnum_fixed.
Qed.

(** X3.  Sanitizing a name written in two parts gives the two sanitized
    parts one after the other: no match of the pattern that spans the
    place where the parts meet changes what is left. *)
Theorem sanitize_append :
  forall a b : string, sanitize (a ++ b) = sanitize a ++ sanitize b.
Proof. intros a b. rewrite !sanitize_keepAlnum. apply keepAlnum_app. Qed.

(** ** Failed lookups *)

(** X4.  When the lookup fails, the five instance operations return
    their zero value and: the sentinel [InstanceNotFound] if the lookup
    reported zero matches, whatever error came with it; otherwise a new
    error whose text is the operation's prefix followed by the text of
    the error of the lookup.  The adapter is left as it was. *)
Theorem instance_operations_map_failed_lookups :
  forall (World : Type) (P : Platform World) (cs : CSCloud) (c : CloudStackClient)
         (w w1 : World) (key : string) (count : Z) (err : error),
    client cs = Some c ->
    let scope := [WithProject (projectID cs)] in
    (vmByName P c key scope w = (Failed count err, w1) ->
       NodeAddresses P key cs w
       = Done ([], Some (instanceError "error retrieving node addresses: " count err))
              cs w1 [EvByName key scope]
       /\ InstanceID P key cs w
          = Done ("", Some (instanceError "error retrieving instance ID: " count err))
                 cs w1 [EvByName key scope]
       /\ InstanceType P key cs w
          = Done ("", Some (instanceError "error retrieving instance type: " count err))
                 cs w1 [EvByName key scope])
    /\ (vmByID P c key scope w = (Failed count err, w1) ->
       NodeAddressesByProviderID P key cs w
       = Done ([], Some (instanceError "error retrieving node addresses: " count err))
              cs w1 [EvByID key scope]
       /\ InstanceTypeByProviderID P key cs w
          = Done ("", Some (instanceError "error retrieving instance type: " count err))
                 cs w1 [EvByID key scope]).
Proof.
  intros World P cs c w w1 key count err Hc scope. subst scope.
  unfold instanceError.
  split; intros H; repeat split; run_methods; reflexivity.
Qed.

Lemma instance_operations_map_failed_lookups_witness :
  InstanceID Sample.site "gone" (Sample.adapter "p1" "") tt
  = Done ("", Some InstanceNotFound) (Sample.adapter "p1" "") tt
         [EvByName "gone" [WithProject "p1"]]
  /\ InstanceTypeByProviderID Sample.unreachable "vm-1" (Sample.adapter "p1" "") tt
     = Done ("", Some (New "error retrieving instance type: connection refused"))
            (Sample.adapter "p1" "") tt [EvByID "vm-1" [WithProject "p1"]].
Proof.
  split.
  - pose proof (instance_operations_map_failed_lookups unit Sample.site
                  (Sample.adapter "p1" "") Sample.theClient tt tt "gone" 0%Z
                  (New "No match found for gone") eq_refl) as H.
    cbv zeta in H. destruct H as [H _].
    destruct (H eq_refl) as (_ & H2 & _). exact H2.
  - pose proof (instance_operations_map_failed_lookups unit Sample.unreachable
                  (Sample.adapter "p1" "") Sample.theClient tt tt "vm-1" (-1)%Z
                  (New "connection refused") eq_refl) as H.
    cbv zeta in H. destruct H as [_ H].
    destruct (H eq_refl) as (_ & H2). exact H2.
Defined.

(** X5.  The two zone operations by key: an instance that is found gives
    its zone name as failure domain and as region; a failed lookup gives
    the empty zone record and a new error, which is never the sentinel
    [InstanceNotFound]: with zero matches its text names the key that was
    asked for and not the error of the lookup, otherwise it is "error
    retrieving zone: " and the text of that error. *)
Theorem GetZoneBy_results :
  forall (World : Type) (P : Platform World) (cs : CSCloud) (c : CloudStackClient)
         (w : World) (key : string),
    client cs = Some c ->
    let scope := [WithProject (projectID cs)] in
    returned (GetZoneByProviderID P key cs w)
    = Some match fst (vmByID P c key scope w) with
           | Found vm _ =>
               ({| cloudprovider.FailureDomain := Zonename vm;
                   cloudprovider.Region := Zonename vm |}, None)
           | Failed count err =>
               (emptyZone,
                Some (New (if (count =? 0)%Z then "could not find node by ID: " ++ key
                           else "error retrieving zone: " ++ Error err)))
           end
    /\ returned (GetZoneByNodeName P key cs w)
       = Some match fst (vmByName P c key scope w) with
              | Found vm _ =>
                  ({| cloudprovider.FailureDomain := Zonename vm;
                      cloudprovider.Region := Zonename vm |}, None)
              | Failed count err =>
                  (emptyZone,
                   Some (New (if (count =? 0)%Z then "could not find node: " ++ key
                              else "error retrieving zone: " ++ Error err)))
              end
    /\ (forall z e, returned (GetZoneByProviderID P key cs w) = Some (z, Some e)
                    \/ returned (GetZoneByNodeName P key cs w) = Some (z, Some e) ->
                    e <> InstanceNotFound /\ z = emptyZone).
Proof.
  intros World P cs c w key Hc scope. subst scope.
  split; [|split].
  - destruct (vmByID P c key [WithProject (projectID cs)] w) as [[vm n|n e] w1] eqn:E;
      cbn [fst]; run_methods; reflexivity.
  - destruct (vmByName P c key [WithProject (projectID cs)] w) as [[vm n|n e] w1] eqn:E;
      cbn [fst]; run_methods; reflexivity.
  - intros z e [H | H]; revert H;
      unfold_methods; cbn beta iota; repeat step; cbn;
      intros [= <- <-]; split; (discriminate || reflexivity).
Qed.

Lemma GetZoneBy_results_witness :
  returned (GetZoneByNodeName Sample.site "worker-2" (Sample.adapter "" "") tt)
  = Some ({| cloudprovider.FailureDomain := "zoneB";
             cloudprovider.Region := "zoneB" |}, None)
  /\ returned (GetZoneByProviderID Sample.site "vm-9" (Sample.adapter "" "") tt)
     = Some (emptyZone, Some (New "could not find node by ID: vm-9")).
Proof.
  split.
  - pose proof (GetZoneBy_results unit Sample.site (Sample.adapter "" "")
                  Sample.theClient tt "worker-2" eq_refl) as H.
    cbv zeta in H. destruct H as (_ & H & _). exact H.
  - pose proof (GetZoneBy_results unit Sample.site (Sample.adapter "" "")
                  Sample.theClient tt "vm-9" eq_refl) as H.
    cbv zeta in H. destruct H as (H & _). exact H.
Defined.

(** ** The current zone when it cannot be resolved *)

(** X6.  With an empty cached zone: if the host name cannot be read,
    [GetZone] makes no remote lookup and returns an error with the text
    of the failure; if the lookup of the host name fails, it returns an
    error that tells zero matches from any other failure.  In every case
    in which [GetZone] returns an error the zone record is empty and the
    adapter is unchanged, so a failure is never cached. *)
Theorem GetZone_failures :
  forall (World : Type) (P : Platform World) (cs : CSCloud) (w : World),
    (zone cs = "" ->
     forall h e w1, hostname P w = ((h, Some e), w1) ->
       GetZone P cs w
       = Done (emptyZone,
               Some (New ("failed to get hostname for retrieving the zone: "
                          ++ Error e)))
              cs w1 [EvHostname])
    /\ (zone cs = "" ->
        forall c h w1 count e w2,
          client cs = Some c ->
          hostname P w = ((h, None), w1) ->
          vmByName P c h [] w1 = (Failed count e, w2) ->
          GetZone P cs w
          = Done (emptyZone,
                  Some (New ((if (count =? 0)%Z
                              then "could not find instance for retrieving the zone: "
                              else "error getting instance for retrieving the zone: ")
                             ++ Error e)))
                 cs w2 [EvHostname; EvByName h []])
    /\ (forall z e cs' w' evs,
          GetZone P cs w = Done (z, Some e) cs' w' evs ->
          cs' = cs /\ z = emptyZone /\ zone cs = "").
Proof.
  intros World P cs w. split; [|split].
  - intros Hz h e w1 Hh.
    assert (Hz' : (zone cs =? "") = true) by (rewrite Hz; reflexivity).
    clear Hz. run_methods; reflexivity.
  - intros Hz c h w1 count e w2 Hc Hh Hvm.
    assert (Hz' : (zone cs =? "") = true) by (rewrite Hz; reflexivity).
    clear Hz. run_methods; reflexivity.
  - intros z e cs' w' evs.
    unfold_methods; cbn beta iota; repeat step; try discriminate;
      intros [= <- _ <- _ _]; repeat split; now apply String.eqb_eq.
Qed.

Lemma GetZone_failures_witness :
  GetZone Sample.unreachable (Sample.adapter "" "") tt
  = Done (emptyZone,
          Some (New "failed to get hostname for retrieving the zone: hostname: not available"))
         (Sample.adapter "" "") tt [EvHostname]
  /\ GetZone (Sample.table "nobody" []) (Sample.adapter "" "") tt
     = Done (emptyZone,
             Some (New "could not find instance for retrieving the zone: No match found for nobody"))
            (Sample.adapter "" "") tt [EvHostname; EvByName "nobody" []].
Proof.
  split.
  - exact (proj1 (GetZone_failures unit Sample.unreachable (Sample.adapter "" "") tt)
                 eq_refl "" (New "hostname: not available") tt eq_refl).
  - exact (proj1 (proj2 (GetZone_failures unit (Sample.table "nobody" [])
                           (Sample.adapter "" "") tt))
                 eq_refl Sample.theClient "nobody" tt 0%Z
                 (New "No match found for nobody") tt eq_refl eq_refl eq_refl).
Defined.

(** ** What the operations leave alone *)

(** X7.  No operation ever changes the client or the project scope of
    the adapter, and the zone field changes only from empty, and only in
    [GetZone] and in [InstanceMetadata] (which calls it). *)
Theorem operations_keep_client_and_project :
  forall (World : Type) (P : Platform World) (op : Operation)
         (cs cs' : CSCloud) (w w' : World) (evs : list Event),
    perform P op cs w = Done tt cs' w' evs ->
    client cs' = client cs
    /\ projectID cs' = projectID cs
    /\ (zone cs' = zone cs
        \/ (zone cs = ""
            /\ (op = OpGetZone \/ exists node, op = OpInstanceMetadata node))).
Proof.
  intros World P op cs cs' w w' evs.
  destruct op; unfold_methods; cbn beta iota; repeat step;
    try discriminate; intros [= <- _ _]; cbn [client projectID zone with_zone];
    repeat split; try congruence;
    first [ left; reflexivity
          | right; split;
            [ now apply String.eqb_eq
            | first [ left; reflexivity | right; eexists; reflexivity ] ] ].
Qed.

Lemma operations_keep_client_and_project_witness :
  client (Sample.adapter "p1" "zoneA") = client (Sample.adapter "p1" "")
  /\ projectID (Sample.adapter "p1" "zoneA") = projectID (Sample.adapter "p1" "")
  /\ (zone (Sample.adapter "p1" "zoneA") = zone (Sample.adapter "p1" "")
      \/ (zone (Sample.adapter "p1" "") = ""
          /\ (OpGetZone = OpGetZone
              \/ exists node, OpGetZone = OpInstanceMetadata node))).
Proof.
  apply (operations_keep_client_and_project unit Sample.site OpGetZone
           (Sample.adapter "p1" "") (Sample.adapter "p1" "zoneA") tt tt
           [EvHostname; EvByName "ctrl" []; EvLog (InfoV 2) "Current zone is zoneA"]).
  reflexivity.
Defined.

(** X8.  The capability queries, [Initialize], [ProviderName],
    [HasClusterID], [CurrentNodeName], [AddSSHKeyToAllInstances] and the
    two shutdown queries return on every adapter, with or without a
    client, leave the adapter and the world as they were, and make no
    remote lookup and no call for the host name. *)
Theorem local_operations_call_nothing :
  forall (World : Type) (P : Platform World) (op : Operation)
         (cs : CSCloud) (w : World),
    isLocal op = true ->
    exists evs,
      perform P op cs w = Done tt cs w evs
      /\ lookups evs = []
      /\ filter isHostname evs = [].
Proof.
  intros World P op cs w Hl.
  destruct op; try discriminate Hl; unfold_methods; cbn beta iota;
    try (destruct (client cs)); cbn; eexists; repeat split.
Qed.

Lemma local_operations_call_nothing_witness :
  exists evs,
    perform Sample.site (OpAddSSHKeyToAllInstances "root" "ssh-rsa AAAA")
            {| client := None; projectID := ""; zone := "" |} tt
    = Done tt {| client := None; projectID := ""; zone := "" |} tt evs
    /\ lookups evs = []
    /\ filter isHostname evs = [].
Proof.
  apply (local_operations_call_nothing unit Sample.site
           (OpAddSSHKeyToAllInstances "root" "ssh-rsa AAAA")).
  reflexivity.
Defined.

(** The unsupported operations answer with the sentinel
    [NotImplemented]. *)
Lemma unsupported_operations :
  forall (World : Type) (cs : CSCloud) (w : World) (a b : string) (node : corev1.Node),
    AddSSHKeyToAllInstances a b cs w = Done (Some NotImplemented) cs w []
    /\ InstanceShutdownByProviderID a cs w = Done (false, Some NotImplemented) cs w []
    /\ InstanceShutdown node cs w = Done (false, Some NotImplemented) cs w [].
Proof. intros; repeat split. Qed.

(** X9.  On an adapter without a client every operation that looks an
    instance up panics (a [nil] client is dereferenced), before any
    lookup; [GetZone] still answers when the zone is cached, and when the
    host name cannot be read, and panics only when it has to look the
    host name up. *)
Theorem lookups_need_a_client :
  forall (World : Type) (P : Platform World) (cs : CSCloud) (w : World),
    client cs = None ->
    (forall op, isLocal op = false -> op <> OpGetZone -> perform P op cs w = Panic)
    /\ (zone cs <> "" -> perform P OpGetZone cs w <> Panic)
    /\ (zone cs = "" ->
        (perform P OpGetZone cs w = Panic <-> snd (fst (hostname P w)) = None)).
Proof.
  intros World P cs w Hc. split; [|split].
  - intros op Hl Hop.
    destruct op; try discriminate Hl; try (now elim Hop);
      unfold_methods; cbn beta iota; rewrite Hc; reflexivity.
  - intros Hz. apply String.eqb_neq in Hz.
    unfold_methods. rewrite Hz. discriminate.
  - intros Hz.
    assert (Hz' : (zone cs =? "") = true) by (rewrite Hz; reflexivity).
    unfold_methods. rewrite Hz'. cbn beta iota.
    destruct (hostname P w) as [[h [e|]] w1]; cbn; rewrite ?Hc; cbn;
      split; (reflexivity || discriminate).
Qed.

Lemma lookups_need_a_client_witness :
  perform Sample.site (OpInstanceID "ctrl")
          {| client := None; projectID := ""; zone := "" |} tt = Panic
  /\ perform Sample.site OpGetZone
             {| client := None; projectID := ""; zone := "zoneA" |} tt <> Panic.
Proof.
  split.
  - apply (proj1 (lookups_need_a_client unit Sample.site
                    {| client := None; projectID := ""; zone := "" |} tt eq_refl));
      [reflexivity | discriminate].
  - apply (proj1 (proj2 (lookups_need_a_client unit Sample.site
                    {| client := None; projectID := ""; zone := "zoneA" |} tt eq_refl))).
    discriminate.
Defined.

(** ** How the composite operations use the simple ones *)

(** X10.  [InstanceExists] answers [true] exactly when the lookup by the
    node's name finds an instance and the lookup by that instance's
    identifier, made next on the world the first lookup left, finds one
    too; it never answers [true] together with an error. *)
Theorem InstanceExists_true_iff :
  forall (World : Type) (P : Platform World) (cs : CSCloud) (c : CloudStackClient)
         (w : World) (node : corev1.Node),
    client cs = Some c ->
    let scope := [WithProject (projectID cs)] in
    ((exists e, returned (InstanceExists P node cs w) = Some (true, e))
     <-> exists vm n w1 vm' n' w2,
           vmByName P c (corev1.Name node) scope w = (Found vm n, w1)
           /\ vmByID P c (Id vm) scope w1 = (Found vm' n', w2))
    /\ (forall e, returned (InstanceExists P node cs w) = Some (true, e) -> e = None).
Proof.
  intros World P cs c w node Hc scope. subst scope.
  destruct (vmByName P c (corev1.Name node) [WithProject (projectID cs)] w)
    as [[vm n|n e] w1] eqn:E1.
  - destruct (vmByID P c (Id vm) [WithProject (projectID cs)] w1)
      as [[vm' n'|n' e'] w2] eqn:E2.
    + assert (H : returned (InstanceExists P node cs w) = Some (true, None))
        by (run_methods; reflexivity).
      rewrite H. split; [split|].
      * intros _. now exists vm, n, w1, vm', n', w2.
      * intros _. now exists None.
      * now intros e0 [= <-].
    + assert (H : exists b, returned (InstanceExists P node cs w) = Some (false, b))
        by (run_methods; eexists; reflexivity).
      destruct H as [b H]. rewrite H. split; [split|].
      * intros [e0 He]. discriminate He.
      * intros (vm0 & n0 & w0 & vm1 & n1 & w3 & H1 & H2).
        injection H1 as <- <- <-. rewrite E2 in H2. discriminate.
      * intros e0 He. discriminate He.
  - assert (H : exists b, returned (InstanceExists P node cs w) = Some (false, b))
      by (run_methods; eexists; reflexivity).
    destruct H as [b H]. rewrite H. split; [split|].
    + intros [e0 He]. discriminate He.
    + intros (vm0 & n0 & w0 & vm1 & n1 & w3 & H1 & H2). discriminate.
    + intros e0 He. discriminate He.
Qed.

Lemma InstanceExists_true_iff_witness :
  exists e,
    returned (InstanceExists Sample.site (Sample.nodeOf "ctrl") (Sample.adapter "" "") tt)
    = Some (true, e).
Proof.
  pose proof (InstanceExists_true_iff unit Sample.site (Sample.adapter "" "")
                Sample.theClient tt (Sample.nodeOf "ctrl") eq_refl) as H.
  cbv zeta in H. destruct H as [[_ H] _]. apply H.
  exists Sample.ctrl, 1%Z, tt, Sample.ctrl, 1%Z, tt. split; reflexivity.
Defined.



(** X12.  [InstanceMetadata] returns a record or an error, never both
    and never neither.  In a record zone and region are the same string,
    which is the zone the adapter holds after the call, and the provider
    ID is the provider's name.  When the adapter had a cached zone, the
    record of every node carries that zone. *)
Theorem InstanceMetadata_record :
  forall (World : Type) (P : Platform World) (cs cs' : CSCloud) (w w' : World)
         (node : corev1.Node) (md : option cloudprovider.InstanceMetadata)
         (e : option error) (evs : list Event),
    InstanceMetadata P node cs w = Done (md, e) cs' w' evs ->
    (md = None <-> e <> None)
    /\ (forall r, md = Some r ->
          cloudprovider.Zone_ r = zone cs'
          /\ cloudprovider.Region_ r = zone cs'
          /\ cloudprovider.ProviderID r = ProviderName
          /\ (zone cs <> "" -> cloudprovider.Zone_ r = zone cs)).
Proof.
  intros World P cs cs' w w' node md e evs.
  unfold_methods; cbn beta iota; repeat step; try discriminate;
    intros [= <- <- <- _ _]; cbn [zone with_zone];
    (split; [split; [intros H; discriminate || (intros; discriminate)
                    | intros H; first [reflexivity | now elim H]]
            | intros r Hr; first [discriminate Hr | injection Hr as <-]; cbn;
              repeat split; try reflexivity; intros Hz;
              first [reflexivity
                    | apply String.eqb_neq in Hz; congruence
                    | exfalso; apply Hz; now apply String.eqb_eq ]]).
Qed.

Lemma InstanceMetadata_record_witness :
  cloudprovider.Zone_
    {| cloudprovider.ProviderID := "external-cloudstack";
       cloudprovider.InstanceType := "gpularge";
       cloudprovider.NodeAddresses :=
         [addr corev1.NodeInternalIP "10.0.0.6"; addr corev1.NodeHostName "node1";
          addr corev1.NodeExternalIP "203.0.113.9"];
       cloudprovider.Zone_ := "zoneX";
       cloudprovider.Region_ := "zoneX" |}
  = zone (Sample.adapter "" "zoneX").
Proof.
  pose proof (InstanceMetadata_record unit Sample.site (Sample.adapter "" "zoneX")
                (Sample.adapter "" "zoneX") tt tt (Sample.nodeOf "worker-2")
                _ None _ eq_refl) as [_ H].
  exact (proj1 (H _ eq_refl)).
Defined.

(** ** The shape of an address list *)

Lemma nodeAddresses_value {World : Type} (vm : VirtualMachine) (cs : CSCloud)
      (w : World) :
  returned (nodeAddresses vm cs w)
  = Some match Nic_ vm with
         | [] => ([], Some (New "instance does not have an internal IP"))
         | nic0 :: _ => (addressList nic0 vm, None)
         end.
Proof.
  unfold_methods. unfold addressList, addr, nonEmpty.
  destruct (Nic_ vm) as [|nic0 rest]; [reflexivity|].
  destruct (Hostname vm =? ""), (Publicip vm =? ""); reflexivity.
Qed.

(** X13.  An address list that [nodeAddresses] returns without error
    has between one and three entries, of pairwise different types, the
    first of which is the internal IP of the first interface; every entry
    after the first has a non-empty address.  The list depends only on
    the first interface, the host name and the public IP: further
    interfaces are ignored. *)
Theorem nodeAddresses_shape :
  forall (World : Type) (vm : VirtualMachine) (cs : CSCloud) (w : World)
         (l : list corev1.NodeAddress),
    returned (nodeAddresses vm cs w) = Some (l, None) ->
    (1 <= length l <= 3)%nat
    /\ NoDup (map corev1.Type_ l)
    /\ (exists nic0 rest, Nic_ vm = nic0 :: rest
                          /\ hd_error l = Some (addr corev1.NodeInternalIP (Ipaddress nic0)))
    /\ Forall (fun a => corev1.Address a <> "") (tl l)
    /\ (forall vm' cs' (w' : World),
          hd_error (Nic_ vm') = hd_error (Nic_ vm) ->
          Hostname vm' = Hostname vm -> Publicip vm' = Publicip vm ->
          returned (nodeAddresses vm' cs' w') = Some (l, None)).
Proof.
  intros World vm cs w l. rewrite nodeAddresses_value.
  destruct (Nic_ vm) as [|nic0 rest] eqn:En; [discriminate|].
  intros [= <-]. unfold addressList, addr.
  assert (Hsame : forall vm' cs' (w' : World),
             hd_error (Nic_ vm') = hd_error (nic0 :: rest) ->
             Hostname vm' = Hostname vm -> Publicip vm' = Publicip vm ->
             returned (nodeAddresses vm' cs' w')
             = Some (addressList nic0 vm, None)).
  { intros vm' cs' w' Hn Hh Hp. rewrite nodeAddresses_value.
    destruct (Nic_ vm') as [|nic1 rest']; [discriminate|].
    injection Hn as ->. unfold addressList. now rewrite Hh, Hp. }
  destruct (Hostname vm =? "") eqn:Eh, (Publicip vm =? "") eqn:Ep;
    apply String.eqb_eq in Eh || apply String.eqb_neq in Eh;
    apply String.eqb_eq in Ep || apply String.eqb_neq in Ep;
    cbn;
    (split; [lia|]);
    (split; [repeat constructor; cbn; intuition discriminate|]);
    (split; [exists nic0, rest; split; reflexivity|]);
    (split; [repeat constructor; assumption|]);
    intros vm' cs' w' Hn Hh Hp;
    rewrite (Hsame vm' cs' w' Hn Hh Hp); unfold addressList, addr;
    try (apply String.eqb_eq in Eh); try (apply String.eqb_neq in Eh);
    try (apply String.eqb_eq in Ep); try (apply String.eqb_neq in Ep);
    rewrite Eh, Ep; reflexivity.
Qed.

Lemma nodeAddresses_shape_witness :
  (1 <= length [addr corev1.NodeInternalIP "10.0.0.6";
                addr corev1.NodeHostName "node1";
                addr corev1.NodeExternalIP "203.0.113.9"] <= 3)%nat.
Proof.
  exact (proj1 (nodeAddresses_shape unit Sample.worker (Sample.adapter "" "") tt
                  _ eq_refl)).
Defined.

(** ** From the configuration to a working adapter *)

(** X14.  The registered factory: without a configuration stream it
    fails with "no cloud provider config given"; when the stream does not
    parse it fails with "could not parse cloud provider config: " and the
    text of the parse error, and [newCSCloud] is not reached; when the
    stream parses it returns what [newCSCloud] returns for the parsed
    settings.  It returns an error exactly when it returns no adapter. *)
Theorem registered_results :
  forall (Reader : Type) (ReadInto : CSConfig -> Reader -> CSConfig * option error),
    registered Reader ReadInto None
    = (AsInterface None, Some (New "no cloud provider config given"))
    /\ (forall r cfg e,
          ReadInto emptyConfig r = (cfg, Some e) ->
          registered Reader ReadInto (Some r)
          = (NilInterface,
             Some (New ("could not parse cloud provider config: " ++ Error e))))
    /\ (forall r cfg,
          ReadInto emptyConfig r = (cfg, None) ->
          registered Reader ReadInto (Some r)
          = (AsInterface (fst (newCSCloud cfg)), snd (newCSCloud cfg)))
    /\ (forall config i e,
          registered Reader ReadInto config = (i, e) ->
          (e = None <-> exists cs, i = AsInterface (Some cs))).
Proof.
  intros Reader ReadInto. unfold registered, readConfig.
  split; [reflexivity|]. split; [|split].
  - intros r cfg e H. rewrite H. reflexivity.
  - intros r cfg H. rewrite H. destruct (newCSCloud cfg); reflexivity.
  - intros config i e.
    assert (Hnew : forall cfg i e,
               (let (cs, err) := newCSCloud cfg in (AsInterface cs, err)) = (i, e) ->
               (e = None <-> exists cs, i = AsInterface (Some cs))).
    { clear. intros cfg i e. unfold newCSCloud.
      destruct (nonEmpty _ && nonEmpty _ && nonEmpty _); cbn;
        intros [= <- <-]; split; try discriminate; eauto.
      intros [cs H]; discriminate H. }
    destruct config as [r|]; [|apply Hnew].
    destruct (ReadInto emptyConfig r) as [cfg [err|]]; [|apply Hnew].
    intros [= <- <-]. split; [discriminate|]. intros [cs H]; discriminate H.
Qed.

Lemma registered_results_witness :
  registered SampleReader sampleReadInto (Some (Malformed "line 3: bad section"))
  = (NilInterface,
     Some (New "could not parse cloud provider config: line 3: bad section")).
Proof.
  exact (proj1 (proj2 (registered_results SampleReader sampleReadInto))
               (Malformed "line 3: bad section") emptyConfig
               (New "line 3: bad section") eq_refl).
Defined.



(** X16.  Every adapter that [newCSCloud] returns has a client: each of
    its operations returns (none panics), and its queries for load
    balancer, instances, instances-v2 and zones answer "supported". *)
Theorem newCSCloud_adapter_works :
  forall (World : Type) (P : Platform World) (cfg : CSConfig) (cs : CSCloud)
         (e : option error) (w : World),
    newCSCloud cfg = (Some cs, e) ->
    e = None
    /\ (forall op, perform P op cs w <> Panic)
    /\ returned (LoadBalancer cs w) = Some (Some cs, true)
    /\ returned (Instances cs w) = Some (Some cs, true)
    /\ returned (InstancesV2 cs w) = Some (Some cs, true)
    /\ returned (Zones cs w) = Some (Some cs, true).
Proof.
  intros World P cfg cs e w. unfold newCSCloud.
  destruct (nonEmpty _ && nonEmpty _ && nonEmpty _); cbn; [|discriminate].
  intros [= <- <-]. split; [reflexivity|]. split.
  - intros op. eapply perform_returns. reflexivity.
  - repeat split.
Qed.

Lemma newCSCloud_adapter_works_witness :
  perform Sample.site (OpInstanceMetadata (Sample.nodeOf "ctrl"))
          (Sample.adapter "p1" "") tt <> Panic.
Proof.
  exact (proj1 (proj2 (newCSCloud_adapter_works unit Sample.site
                         {| Global := {| APIURL := "https://cloud.example/client/api";
                                         APIKey := "key"; SecretKey := "secret";
                                         SSLNoVerify := false; ProjectID := "p1";
                                         Zone := "" |} |}
                         (Sample.adapter "p1" "") None tt eq_refl))
               (OpInstanceMetadata (Sample.nodeOf "ctrl"))).
Defined.

(** ** Where the pattern matches *)

(** X17.  The pattern of the provider matches at the head of a string
    exactly when the string starts with a character that is neither a
    letter nor a digit; the match then takes at least that character and
    only characters that are neither letters nor digits. *)
Theorem pattern_matches_at_non_alphanumeric :
  forall s : string,
    (matchWidth labelInvalidCharsRegex s <> None
     <-> exists c rest, s = String c rest /\ isAlnum c = false)
    /\ (forall n, matchWidth labelInvalidCharsRegex s = Some n ->
          (1 <= n <= String.length s)%nat
          /\ exists pre rest, s = pre ++ rest /\ String.length pre = n
                              /\ allChars notAlnum pre = true).
Proof.
  intros s. split; [split|].
  - destruct (matchWidth labelInvalidCharsRegex s) as [n|] eqn:E;
      [intros _ | intros H; now elim H].
    apply matchWidth_some in E.
    destruct E as (pre & rest & -> & Hl & Hn & Hp).
    destruct pre as [|c pre]; [simpl in Hl; lia|].
    exists c, (pre ++ rest). split; [reflexivity|].
    simpl in Hp. apply andb_true_iff in Hp. destruct Hp as [Hc _].
    unfold notAlnum in Hc. now apply negb_true_iff in Hc.
  - intros (c & rest & -> & Hc).
    destruct (matchWidth_head c rest Hc) as [n Hn]. rewrite Hn. discriminate.
  - intros n E. apply matchWidth_some in E.
    destruct E as (pre & rest & -> & Hl & Hn & Hp).
    split; [|now exists pre, rest].
    rewrite length_append. lia.
Qed.

Lemma pattern_matches_at_non_alphanumeric_witness :
  (1 <= 2 <= String.length "!!x")%nat
  /\ exists pre rest, "!!x" = pre ++ rest /\ String.length pre = 2%nat
                      /\ allChars notAlnum pre = true.
Proof.
  exact (proj2 (pattern_matches_at_non_alphanumeric "!!x") 2%nat eq_refl).
Defined.
